(** * Route-finding core of the bus_routes Django application

    Shallow embedding of the route-finding functions of
    [src/bus_routes/views.py] together with the model records of
    [src/bus_routes/models.py].  The database is an explicit [Store] value;
    Django querysets become list functions over it.  Decimal coordinates
    (6 decimal places) are kept as integers counting micro-degrees, and the
    float arithmetic of the distance/duration provider is done in [Q]. *)

From Stdlib Require Import Bool Arith ZArith QArith List String Ascii.
From Stdlib Require Import Sorting.Sorted Permutation Lia.
Import ListNotations.
Open Scope nat_scope.
Set Warnings "-register-all".

(* ------------------------------------------------------------------ *)
(** ** Python helpers *)

Module Py.

(** [str.isspace] restricted to ASCII: \t \n \v \f \r, \x1c-\x1f and space. *)
Definition isspace (c : ascii) : bool :=
  let n := nat_of_ascii c in
  ((9 <=? n) && (n <=? 13)) || ((28 <=? n) && (n <=? 32)).

Fixpoint lstrip_l (l : list ascii) : list ascii :=
  match l with
  | [] => []
  | c :: r => if isspace c then lstrip_l r else l
  end.

(** [s.strip()] *)
Definition strip (s : string) : string :=
  string_of_list_ascii
    (rev (lstrip_l (rev (lstrip_l (list_ascii_of_string s))))).

(** [c in s] for a one-character [c] *)
Fixpoint contains (c : ascii) (s : string) : bool :=
  match s with
  | EmptyString => false
  | String d r => Ascii.eqb d c || contains c r
  end.

(** [s.endswith(c)] for a one-character [c] *)
Fixpoint endswith (c : ascii) (s : string) : bool :=
  match s with
  | EmptyString => false
  | String d EmptyString => Ascii.eqb d c
  | String _ r => endswith c r
  end.

(** Split at the last occurrence of [c]: the prefix before it and the
    suffix after it. *)
Fixpoint split_last (c : ascii) (s : string) : option (string * string) :=
  match s with
  | EmptyString => None
  | String d r =>
      match split_last c r with
      | Some (p, q) => Some (String d p, q)
      | None => if Ascii.eqb d c then Some (EmptyString, r) else None
      end
  end.

(** [s.rsplit(c, 1)] *)
Definition rsplit1 (c : ascii) (s : string) : list string :=
  match split_last c s with
  | Some (p, q) => [p; q]
  | None => [s]
  end.

(** [s[:-1]] *)
Fixpoint drop_last (s : string) : string :=
  match s with
  | EmptyString => EmptyString
  | String _ EmptyString => EmptyString
  | String d r => String d (drop_last r)
  end.

(** ASCII lower-casing, the case folding of Django's [__iexact]. *)
Definition lower_char (c : ascii) : ascii :=
  let n := nat_of_ascii c in
  if (65 <=? n) && (n <=? 90) then ascii_of_nat (n + 32) else c.

Fixpoint lower (s : string) : string :=
  match s with
  | EmptyString => EmptyString
  | String c r => String (lower_char c) (lower r)
  end.

(** Truthiness of a Python [str]: non-empty. *)
Definition truthy_str (s : string) : bool :=
  match s with EmptyString => false | _ => true end.

End Py.

(* ------------------------------------------------------------------ *)
(** ** Models (models.py) *)

Record BusStop := mkBusStop {
  stop_id : nat;
  name_mm : string;
  name_en : string;
  road_name_mm : option string;   (* null=True *)
  road_name_en : option string;   (* null=True *)
  latitude : option Z;            (* DecimalField(decimal_places=6), micro-degrees *)
  longitude : option Z
}.

Record BusLine := mkBusLine {
  line_id : nat;
  line_number : Z;
  description : string
}.

(** A [RouteSegment] row with its [bus_line] and [bus_stop] foreign keys
    loaded (as [select_related] does). *)
Record RouteSegment := mkRouteSegment {
  seg_line : BusLine;
  seg_stop : BusStop;
  seg_order : Z
}.

(** The database tables, each in primary-key order. *)
Record Store := mkStore {
  stops : list BusStop;
  lines : list BusLine;
  segments : list RouteSegment
}.

(* ------------------------------------------------------------------ *)
(** ** Stop name resolution (views.py, parse_stop_name_with_road and
       get_bus_stop_object) *)

Definition parse_stop_name_with_road (full_name : string)
  : string * option string :=
  if Py.contains "(" full_name && Py.endswith ")" full_name then
    match Py.rsplit1 "(" full_name with
    | [p0; p1] => (Py.strip p0, Some (Py.strip (Py.drop_last p1)))
    | _ => (full_name, None)  (* not reached: "(" occurs in full_name *)
    end
  else (full_name, None).

(** [field__iexact=v] *)
Definition iexact (field v : string) : bool :=
  String.eqb (Py.lower field) (Py.lower v).

(** [field__iexact=v] on a nullable column: NULL never matches. *)
Definition iexact_opt (field : option string) (v : string) : bool :=
  match field with Some f => iexact f v | None => false end.

Definition isnull (field : option string) : bool :=
  match field with Some _ => false | None => true end.

(** A Django [Q] filter over [BusStop] rows. *)
Definition StopQ := BusStop -> bool.

(** [BusStop.objects.filter(q).first()]: first row in primary-key order. *)
Definition filter_first (stops : list BusStop) (q : StopQ) : option BusStop :=
  find q stops.

Definition get_bus_stop_object (all_stops : list BusStop) (stop_name_raw : string)
  : option BusStop :=
  let (stop_name, road_name) := parse_stop_name_with_road stop_name_raw in
  let name_query : StopQ := fun s =>
    iexact (name_en s) stop_name || iexact (name_mm s) stop_name in
  let query : StopQ :=
    match road_name with
    | Some r =>
        if Py.truthy_str r then
          let road_query : StopQ := fun s =>
            (iexact (name_en s) stop_name && iexact_opt (road_name_en s) r) ||
            (iexact (name_mm s) stop_name && iexact_opt (road_name_mm s) r) in
          if existsb road_query all_stops then road_query else name_query
        else
          let no_road_query : StopQ := fun s =>
            (iexact (name_en s) stop_name && isnull (road_name_en s)) ||
            (iexact (name_en s) stop_name && iexact_opt (road_name_en s) "") ||
            (iexact (name_mm s) stop_name && isnull (road_name_mm s)) ||
            (iexact (name_mm s) stop_name && iexact_opt (road_name_mm s) "") in
          if existsb no_road_query all_stops then no_road_query else name_query
    | None =>
        let no_road_query : StopQ := fun s =>
          (iexact (name_en s) stop_name && isnull (road_name_en s)) ||
          (iexact (name_en s) stop_name && iexact_opt (road_name_en s) "") ||
          (iexact (name_mm s) stop_name && isnull (road_name_mm s)) ||
          (iexact (name_mm s) stop_name && iexact_opt (road_name_mm s) "") in
        if existsb no_road_query all_stops then no_road_query else name_query
    end in
  filter_first all_stops query.

(** The resolution rule for a name with a road qualifier, in the spec's
    words: a case-insensitive (name, road) match in either language first,
    a name-only match otherwise. *)
Definition spec_exact_match (name road : string) : StopQ := fun s =>
  (iexact (name_en s) name && iexact_opt (road_name_en s) road) ||
  (iexact (name_mm s) name && iexact_opt (road_name_mm s) road).

Definition spec_name_match (name : string) : StopQ := fun s =>
  iexact (name_en s) name || iexact (name_mm s) name.

Definition spec_resolve_with_road (all_stops : list BusStop) (name road : string)
  : option BusStop :=
  if existsb (spec_exact_match name road) all_stops
  then find (spec_exact_match name road) all_stops
  else find (spec_name_match name) all_stops.

(** An empty qualifier, in the spec's words: a stop of that name whose road
    in the same language is NULL or empty first, a name-only match
    otherwise. *)
Definition spec_no_road_match (name : string) : StopQ := fun s =>
  (iexact (name_en s) name &&
     match road_name_en s with None => true | Some r => iexact r "" end) ||
  (iexact (name_mm s) name &&
     match road_name_mm s with None => true | Some r => iexact r "" end).

Definition spec_resolve_empty_road (all_stops : list BusStop) (name : string)
  : option BusStop :=
  if existsb (spec_no_road_match name) all_stops
  then find (spec_no_road_match name) all_stops
  else find (spec_name_match name) all_stops.

(* ------------------------------------------------------------------ *)
(** ** Outcomes of Python code

    A computation returns a value, raises an exception that is not caught,
    or, for the two [while] loops of [find_shortest_path], has not finished
    within the fuel the model is run with.  A fuelled run that returns is a
    run of the Python code. *)

Inductive exn := KeyError | TypeError | IndexError | AttributeError
               | RequestException | DoesNotExist.

Inductive outcome (A : Type) : Type :=
| Ret (a : A)
| Raise (e : exn)
| OutOfFuel.
Arguments Ret {A} a.
Arguments Raise {A} e.
Arguments OutOfFuel {A}.

Definition obind {A B} (m : outcome A) (k : A -> outcome B) : outcome B :=
  match m with
  | Ret a => k a
  | Raise e => Raise e
  | OutOfFuel => OutOfFuel
  end.

Notation "x <- m ;; k" := (obind m (fun x => k))
  (at level 61, m at next level, right associativity).

(** [try: m except Exception: return h] *)
Definition catch_all {A} (m : outcome A) (h : A) : outcome A :=
  match m with
  | Raise _ => Ret h
  | r => r
  end.

(* ------------------------------------------------------------------ *)
(** ** Orderings: Python's stable [list.sort] and Django's [order_by]

    Rows with equal sort keys keep the order they had (primary-key order
    for a table). *)

Fixpoint insert_by {A} (le : A -> A -> bool) (x : A) (l : list A) : list A :=
  match l with
  | [] => [x]
  | y :: r => if le x y then x :: l else y :: insert_by le x r
  end.

Definition sort_by {A} (le : A -> A -> bool) (l : list A) : list A :=
  fold_right (insert_by le) [] l.

(** [RouteSegment.Meta.ordering = ['bus_line', 'order']] *)
Definition meta_le (a b : RouteSegment) : bool :=
  (line_id (seg_line a) <? line_id (seg_line b)) ||
  ((line_id (seg_line a) =? line_id (seg_line b)) && (seg_order a <=? seg_order b)%Z).

(** [order_by('order')], and [sort(key=lambda s: s.order)] *)
Definition order_le (a b : RouteSegment) : bool := (seg_order a <=? seg_order b)%Z.

(** [order_by('-order')] *)
Definition order_desc_le (a b : RouteSegment) : bool := (seg_order b <=? seg_order a)%Z.

(* ------------------------------------------------------------------ *)
(** ** Dictionaries keyed by ids, in insertion order *)

Definition dict (V : Type) := list (nat * V).

Fixpoint dict_get {V} (d : dict V) (k : nat) : option V :=
  match d with
  | [] => None
  | (k', v) :: r => if k =? k' then Some v else dict_get r k
  end.

(** [d[k] = v] *)
Fixpoint dict_set {V} (d : dict V) (k : nat) (v : V) : dict V :=
  match d with
  | [] => [(k, v)]
  | (k', v') :: r => if k =? k' then (k', v) :: r else (k', v') :: dict_set r k v
  end.

(** [d[k]] *)
Definition dict_index {V} (d : dict V) (k : nat) : outcome V :=
  match dict_get d k with Some v => Ret v | None => Raise KeyError end.

(** [d[k].append(v)] on a [defaultdict(list)] *)
Fixpoint dict_append {V} (d : dict (list V)) (k : nat) (v : V) : dict (list V) :=
  match d with
  | [] => [(k, [v])]
  | (k', vs) :: r =>
      if k =? k' then (k', vs ++ [v]) :: r else (k', vs) :: dict_append r k v
  end.

(** [d[k]] on a [defaultdict(list)] *)
Definition dict_get_list {V} (d : dict (list V)) (k : nat) : list V :=
  match dict_get d k with Some vs => vs | None => [] end.

(* ------------------------------------------------------------------ *)
(** ** Network graph (find_shortest_path, first half) *)

Record Edge := mkEdge {
  e_stop_id : nat;
  e_line_id : nat;
  e_line_number : Z
}.

Definition Graph := dict (list Edge).

(** [segments_by_line[segment.bus_line_id].append(segment)] over all rows *)
Definition segments_by_line (all_route_segments : list RouteSegment)
  : dict (list RouteSegment) :=
  fold_left (fun m s => dict_append m (line_id (seg_line s)) s)
            all_route_segments [].

(** [(segments[i], segments[i + 1]) for i in range(len(segments) - 1)] *)
Fixpoint adjacent_pairs {A} (l : list A) : list (A * A) :=
  match l with
  | a :: ((b :: _) as r) => (a, b) :: adjacent_pairs r
  | _ => []
  end.

Definition add_line_edges (g : Graph) (bus_line_id : nat) (segments : list RouteSegment)
  : Graph :=
  fold_left
    (fun g '(sa, sb) =>
       let stop_a := seg_stop sa in
       let stop_b := seg_stop sb in
       let bus_line_number := line_number (seg_line sa) in
       let g := dict_append g (stop_id stop_a)
                  (mkEdge (stop_id stop_b) bus_line_id bus_line_number) in
       dict_append g (stop_id stop_b)
         (mkEdge (stop_id stop_a) bus_line_id bus_line_number))
    (adjacent_pairs (sort_by order_le segments)) g.

(** [RouteSegment.objects.all()] comes in [Meta.ordering]. *)
Definition build_graph (all_segments : list RouteSegment) : Graph :=
  fold_left (fun g '(bus_line_id, segs) => add_line_edges g bus_line_id segs)
            (segments_by_line (sort_by meta_le all_segments)) [].

(* ------------------------------------------------------------------ *)
(** ** Priority search (find_shortest_path, second half) *)

(** A distance: an integer or [float('inf')]. *)
Inductive ext := Fin (n : nat) | Inf.

Definition ext_lt (a b : ext) : bool :=
  match a, b with
  | Fin x, Fin y => x <? y
  | Fin _, Inf => true
  | Inf, _ => false
  end.

(** A heap entry [(cost, stop_id, line_id)]. *)
Definition entry := (nat * nat * option nat)%type.

(** Tuple order of heap entries.  Python would raise comparing [None] with
    an int; two entries that differ only there never coexist (the one
    entry with [None] is the start stop at cost 0). *)
Definition line_le (a b : option nat) : bool :=
  match a, b with
  | None, _ => true
  | Some _, None => false
  | Some x, Some y => x <=? y
  end.

Definition entry_le (a b : entry) : bool :=
  let '(c1, s1, l1) := a in
  let '(c2, s2, l2) := b in
  (c1 <? c2) || ((c1 =? c2) && ((s1 <? s2) || ((s1 =? s2) && line_le l1 l2))).

(** [heapq.heappop]: a least entry and the remaining ones. *)
Fixpoint heappop (pq : list entry) : option (entry * list entry) :=
  match pq with
  | [] => None
  | x :: r =>
      match heappop r with
      | None => Some (x, [])
      | Some (m, r') => if entry_le x m then Some (x, r) else Some (m, x :: r')
      end
  end.

Record SearchState := mkSearchState {
  distances : dict ext;
  predecessors : dict (option (nat * nat));
  priority_queue : list entry
}.

(** One iteration of [for neighbor in graph[current_stop_id]]. *)
Definition relax (cost current_stop_id : nat) (current_line_id : option nat)
    (s : SearchState) (neighbor : Edge) : outcome SearchState :=
  let neighbor_stop_id := e_stop_id neighbor in
  let neighbor_line_id := e_line_id neighbor in
  let transfer_cost :=
    match current_line_id with
    | Some l => if l =? neighbor_line_id then 0 else 1
    | None => 0
    end in
  let new_cost := cost + transfer_cost in
  d <- dict_index (distances s) neighbor_stop_id ;;
  if ext_lt (Fin new_cost) d then
    Ret (mkSearchState
           (dict_set (distances s) neighbor_stop_id (Fin new_cost))
           (dict_set (predecessors s) neighbor_stop_id
              (Some (current_stop_id, neighbor_line_id)))
           (priority_queue s ++ [(new_cost, neighbor_stop_id, Some neighbor_line_id)]))
  else Ret s.

Fixpoint relax_all (cost current_stop_id : nat) (current_line_id : option nat)
    (s : SearchState) (neighbors : list Edge) : outcome SearchState :=
  match neighbors with
  | [] => Ret s
  | n :: r =>
      s' <- relax cost current_stop_id current_line_id s n ;;
      relax_all cost current_stop_id current_line_id s' r
  end.

(** The [while priority_queue] loop; [true] is [shortest_path_found]. *)
Fixpoint search_loop (fuel : nat) (graph : Graph) (end_stop_id : nat)
    (s : SearchState) : outcome (bool * SearchState) :=
  match fuel with
  | O => OutOfFuel
  | S fuel' =>
      match heappop (priority_queue s) with
      | None => Ret (false, s)
      | Some ((cost, current_stop_id, current_line_id), rest) =>
          let s := mkSearchState (distances s) (predecessors s) rest in
          d <- dict_index (distances s) current_stop_id ;;
          if ext_lt d (Fin cost) then search_loop fuel' graph end_stop_id s
          else if current_stop_id =? end_stop_id then Ret (true, s)
          else
            s' <- relax_all cost current_stop_id current_line_id s
                    (dict_get_list graph current_stop_id) ;;
            search_loop fuel' graph end_stop_id s'
      end
  end.

(** A leg of the returned path. *)
Record Leg := mkLeg {
  leg_start_stop_id : nat;
  leg_end_stop_id : nat;
  leg_line_id : nat;
  leg_line_number : option Z
}.

(** [BusLine.objects.filter(id=i).first()] and its [line_number]. *)
Definition line_number_of (all_lines : list BusLine) (i : nat) : option Z :=
  option_map line_number (find (fun l => line_id l =? i) all_lines).

(** The reconstruction loop [while current_stop_id != start_stop_id].
    The Python list [path] is kept here in reverse ([path[-1]] is the head),
    so [path.reverse()] at the end returns this list as it stands. *)
Fixpoint reconstruct (fuel : nat) (all_lines : list BusLine)
    (preds : dict (option (nat * nat))) (start_stop_id current_stop_id : nat)
    (path : list Leg) : outcome (list Leg) :=
  match fuel with
  | O => OutOfFuel
  | S fuel' =>
      if current_stop_id =? start_stop_id then Ret path
      else
        match dict_get preds current_stop_id with
        | None => Ret []          (* .get(..., (None, None)): prev_stop_id is None *)
        | Some None => Raise TypeError   (* unpacking the stored None *)
        | Some (Some (prev_stop_id, prev_line_id)) =>
            let bus_line_number := line_number_of all_lines prev_line_id in
            let path' :=
              match path with
              | last :: r =>
                  if leg_line_id last =? prev_line_id
                  then mkLeg prev_stop_id (leg_end_stop_id last)
                         (leg_line_id last) (leg_line_number last) :: r
                  else mkLeg prev_stop_id current_stop_id prev_line_id bus_line_number
                         :: path
              | [] => [mkLeg prev_stop_id current_stop_id prev_line_id bus_line_number]
              end in
            reconstruct fuel' all_lines preds start_stop_id prev_stop_id path'
        end
  end.

Definition initial_state (all_stops : list BusStop) (start_stop_id : nat) : SearchState :=
  mkSearchState
    (dict_set (map (fun s => (stop_id s, Inf)) all_stops) start_stop_id (Fin 0))
    (map (fun s => (stop_id s, None)) all_stops)
    [(0, start_stop_id, None)].

(** [find_shortest_path(start_stop_id, end_stop_id)]; [fuel] bounds each of
    its two loops. *)
Definition find_shortest_path (fuel : nat) (st : Store) (start_stop_id end_stop_id : nat)
  : outcome (list Leg) :=
  if start_stop_id =? end_stop_id then Ret []
  else
    let graph := build_graph (segments st) in
    r <- search_loop fuel graph end_stop_id (initial_state (stops st) start_stop_id) ;;
    let '(shortest_path_found, s) := r in
    if negb shortest_path_found then Ret []
    else reconstruct fuel (lines st) (predecessors s) start_stop_id end_stop_id [].

(** Paths of the derived graph, to state the fewest-transfer contract: a
    walk is the list of edges followed from a stop. *)
Fixpoint walk_ok (g : Graph) (a : nat) (w : list Edge) (b : nat) : bool :=
  match w with
  | [] => a =? b
  | e :: r =>
      existsb (fun e' => (e_stop_id e' =? e_stop_id e) && (e_line_id e' =? e_line_id e))
              (dict_get_list g a)
      && walk_ok g (e_stop_id e) r b
  end.

(** Line changes between consecutive edges of a walk. *)
Fixpoint walk_transfers (w : list Edge) : nat :=
  match w with
  | e1 :: ((e2 :: _) as r) =>
      (if e_line_id e1 =? e_line_id e2 then 0 else 1) + walk_transfers r
  | _ => 0
  end.

(** Line changes between consecutive legs of a returned path. *)
Fixpoint path_transfers (p : list Leg) : nat :=
  match p with
  | l1 :: ((l2 :: _) as r) =>
      (if leg_line_id l1 =? leg_line_id l2 then 0 else 1) + path_transfers r
  | _ => 0
  end.

(** No two adjacent legs share a line. *)
Fixpoint no_adjacent_same_line (p : list Leg) : bool :=
  match p with
  | l1 :: ((l2 :: _) as r) =>
      negb (leg_line_id l1 =? leg_line_id l2) && no_adjacent_same_line r
  | _ => true
  end.

(** The legs run from [a] to [b], each starting where the previous ends. *)
Fixpoint legs_chain (a : nat) (p : list Leg) (b : nat) : Prop :=
  match p with
  | [] => a = b
  | l :: r => leg_start_stop_id l = a /\ legs_chain (leg_end_stop_id l) r b
  end.

(* ------------------------------------------------------------------ *)
(** ** Distance/duration provider (get_route_details_from_osrm) *)

(** The decoded JSON body of a response. *)
Inductive json :=
| JNull
| JBool (b : bool)
| JNum (q : Q)
| JStr (s : string)
| JArr (l : list json)
| JObj (kvs : list (string * json)).

(** What [requests.get(url, timeout=5)] gives: a transport failure or
    timeout (a [RequestException]), or a response with its status code and
    its body, [None] when the body is not JSON ([response.json()] raises). *)
Inductive http_response :=
| RequestFailed
| Response (status : Z) (body : option json).

(** The external service, as a function of the coordinates sent. *)
Definition Network := list (Q * Q) -> http_response.

(** Python truthiness of a decoded value. *)
Definition truthy (j : json) : bool :=
  match j with
  | JNull => false
  | JBool b => b
  | JNum q => negb (Qeq_bool q 0%Q)
  | JStr s => Py.truthy_str s
  | JArr l => match l with [] => false | _ => true end
  | JObj kvs => match kvs with [] => false | _ => true end
  end.

(** Key lookup in a decoded object; a repeated key keeps its last value. *)
Definition obj_lookup (kvs : list (string * json)) (k : string) : option json :=
  option_map snd (find (fun kv => String.eqb (fst kv) k) (rev kvs)).

(** [j[k]] with a string key *)
Definition getitem_key (j : json) (k : string) : outcome json :=
  match j with
  | JObj kvs => match obj_lookup kvs k with Some v => Ret v | None => Raise KeyError end
  | _ => Raise TypeError
  end.

(** [j[0]] *)
Definition getitem_0 (j : json) : outcome json :=
  match j with
  | JArr (x :: _) => Ret x
  | JArr [] => Raise IndexError
  | JObj _ => Raise KeyError
  | JStr (String c _) => Ret (JStr (String c EmptyString))
  | JStr EmptyString => Raise IndexError
  | _ => Raise TypeError
  end.

(** [j / n] for an int [n]; a [bool] is an int. *)
Definition truediv (j : json) (n : Z) : outcome Q :=
  match j with
  | JNum q => Ret (q / inject_Z n)%Q
  | JBool b => Ret ((if b then 1 else 0) / inject_Z n)%Q
  | _ => Raise TypeError
  end.

(** [data.get('code', 'Unknown error')] for the error message *)
Definition dict_get_method (j : json) (k : string) : outcome unit :=
  match j with JObj _ => Ret tt | _ => Raise AttributeError end.

(** [response.raise_for_status()] *)
Definition raise_for_status (status : Z) : outcome unit :=
  if ((400 <=? status) && (status <? 600))%Z then Raise RequestException else Ret tt.

(** The body of the [try] block, once the request has been sent. *)
Definition osrm_try_body (resp : http_response) : outcome (option Q * option Q) :=
  match resp with
  | RequestFailed => Raise RequestException
  | Response status body =>
      _ <- raise_for_status status ;;
      match body with
      | None => Raise RequestException   (* JSONDecodeError *)
      | Some data =>
          let else_branch :=
            _ <- dict_get_method data "code" ;; Ret (None, None) in
          if truthy data then
            code <- getitem_key data "code" ;;
            if match code with JStr c => String.eqb c "Ok" | _ => false end then
              routes <- getitem_key data "routes" ;;
              if truthy routes then
                route <- getitem_0 routes ;;
                distance_meters <- getitem_key route "distance" ;;
                duration_seconds <- getitem_key route "duration" ;;
                distance_km <- truediv distance_meters 1000 ;;
                duration_minutes <- truediv duration_seconds 60 ;;
                Ret (Some distance_km, Some duration_minutes)
              else else_branch
            else else_branch
          else else_branch
      end
  end.

(** [[(lat, lon) for lat, lon in coords_list if lat is not None and lon is not None]] *)
Fixpoint valid_coords (coords_list : list (option Q * option Q)) : list (Q * Q) :=
  match coords_list with
  | [] => []
  | (Some lat, Some lon) :: r => (lat, lon) :: valid_coords r
  | _ :: r => valid_coords r
  end.

Definition get_route_details_from_osrm (net : Network)
    (coords_list : list (option Q * option Q)) : outcome (option Q * option Q) :=
  if List.length coords_list <? 2 then Ret (None, None)
  else
    let vc := valid_coords coords_list in
    if List.length vc <? 2 then Ret (None, None)
    else catch_all (osrm_try_body (net vc)) (None, None).

(** A successful well-formed reply, in the words of the spec: an object
    whose "code" is "Ok" and whose "routes" is a non-empty array, the first
    route carrying numeric "distance" (meters) and "duration" (seconds);
    it gives kilometers and minutes. *)
Definition json_number (j : json) : option Q :=
  match j with
  | JNum q => Some q
  | JBool b => Some (if b then 1 else 0)%Q
  | _ => None
  end.

Definition osrm_well_formed (data : json) : option (Q * Q) :=
  match data with
  | JObj kvs =>
      match obj_lookup kvs "code", obj_lookup kvs "routes" with
      | Some (JStr c), Some (JArr (JObj route :: _)) =>
          if String.eqb c "Ok" then
            match obj_lookup route "distance", obj_lookup route "duration" with
            | Some dm, Some ds =>
                match json_number dm, json_number ds with
                | Some m, Some s => Some (m / inject_Z 1000, s / inject_Z 60)%Q
                | _, _ => None
                end
            | _, _ => None
            end
          else None
      | _, _ => None
      end
  | _ => None
  end.

(* ------------------------------------------------------------------ *)
(** ** Segment Extractor (get_segment_details) *)

(** One entry of [route_stops_display]. *)
Record StopDisplay := mkStopDisplay {
  sd_name_mm : string;
  sd_name_en : string;
  sd_road_name_mm : option string;
  sd_road_name_en : option string;
  sd_order : Z;
  sd_latitude : option Q;
  sd_longitude : option Q;
  sd_id : nat
}.

(** The returned dict.  Distance and time are kept as computed; the
    display rounding [round(x, 2)] / [round(x, 0)] is left out, and
    [None] stands for 'N/A'. *)
Record SegmentDetails := mkSegmentDetails {
  stops_count : nat;
  total_distance_km : option Q;
  total_time_minutes : option Q;
  route_stops : list StopDisplay;
  start_stop_name : string;
  end_stop_name : string
}.

(** [float(x) if x else None] on a Decimal column: a zero Decimal is falsy. *)
Definition decimal_to_float (x : option Z) : option Q :=
  match x with
  | Some z => if Z.eqb z 0 then None else Some (Qmake z 1000000)
  | None => None
  end.

Definition on_line (L : BusLine) (s : RouteSegment) : bool :=
  line_id (seg_line s) =? line_id L.

(** [segment.bus_stop == stop]: model instances compare by primary key. *)
Definition at_stop (X : BusStop) (s : RouteSegment) : bool :=
  stop_id (seg_stop s) =? stop_id X.

(** [RouteSegment.objects.filter(bus_line=L, bus_stop=X).first()] *)
Definition segment_of (st : Store) (L : BusLine) (X : BusStop) : option RouteSegment :=
  hd_error (sort_by meta_le (filter (fun s => on_line L s && at_stop X s) (segments st))).

(** The queryset [segments] of get_segment_details; [None] when one of the
    two stops has no segment on the line. *)
Definition segment_slice (st : Store) (L : BusLine) (start_stop end_stop : BusStop)
  : option (list RouteSegment) :=
  match segment_of st L start_stop, segment_of st L end_stop with
  | Some start_segment, Some end_segment =>
      if (seg_order start_segment <=? seg_order end_segment)%Z then
        Some (sort_by order_le
                (filter (fun s => on_line L s
                                  && (seg_order start_segment <=? seg_order s)%Z
                                  && (seg_order s <=? seg_order end_segment)%Z)
                        (segments st)))
      else
        Some (sort_by order_desc_le
                (filter (fun s => on_line L s
                                  && (seg_order s <=? seg_order start_segment)%Z
                                  && (seg_order end_segment <=? seg_order s)%Z)
                        (segments st)))
  | _, _ => None
  end.

Definition stop_display (segment : RouteSegment) : StopDisplay :=
  let b := seg_stop segment in
  mkStopDisplay (name_mm b) (name_en b) (road_name_mm b) (road_name_en b)
    (seg_order segment) (decimal_to_float (latitude b))
    (decimal_to_float (longitude b)) (stop_id b).

(** The pair a segment appends to [route_stops_coords], if any. *)
Definition segment_coord (segment : RouteSegment) : option (Q * Q) :=
  match decimal_to_float (latitude (seg_stop segment)),
        decimal_to_float (longitude (seg_stop segment)) with
  | Some lat, Some lng => Some (lat, lng)
  | _, _ => None
  end.

Fixpoint route_stops_coords (segs : list RouteSegment) : list (option Q * option Q) :=
  match segs with
  | [] => []
  | s :: r =>
      match segment_coord s with
      | Some (lat, lng) => (Some lat, Some lng) :: route_stops_coords r
      | None => route_stops_coords r
      end
  end.

Definition get_segment_details (net : Network) (st : Store) (bus_line : BusLine)
    (start_stop end_stop : BusStop) : outcome (option SegmentDetails) :=
  match segment_slice st bus_line start_stop end_stop with
  | None => Ret None
  | Some [] => Ret None                       (* if not segments *)
  | Some segs =>
      r <- get_route_details_from_osrm net (route_stops_coords segs) ;;
      let '(total_distance, total_time) := r in
      Ret (Some (mkSegmentDetails (List.length segs) total_distance total_time
                   (map stop_display segs) (name_en start_stop) (name_en end_stop)))
  end.

(* ------------------------------------------------------------------ *)
(** ** Stops between two stops (find_stops_between) *)

Record BetweenEntry := mkBetweenEntry {
  be_line : BusLine;
  be_stops : list BusStop;
  be_total_stops : nat;
  be_orders : list Z
}.

(** [BusLine.objects.filter(route_segments__bus_stop=X)
       .filter(route_segments__bus_stop=Y).distinct()] *)
Definition common_bus_lines (st : Store) (X Y : BusStop) : list BusLine :=
  filter (fun L => existsb (fun s => on_line L s && at_stop X s) (segments st)
                   && existsb (fun s => on_line L s && at_stop Y s) (segments st))
         (lines st).

(** The [for i, segment in enumerate(route_segments)] loop. *)
Fixpoint positions_from (X Y : BusStop) (i : nat) (segs : list RouteSegment)
    (start_position end_position : option nat) : option nat * option nat :=
  match segs with
  | [] => (start_position, end_position)
  | s :: r =>
      positions_from X Y (S i) r
        (if at_stop X s then Some i else start_position)
        (if at_stop Y s then Some i else end_position)
  end.

(** The body of [for bus_line in common_bus_lines]. *)
Definition stops_between_on_line (st : Store) (X Y : BusStop) (bus_line : BusLine)
  : option BetweenEntry :=
  let route_segments := sort_by order_le (filter (on_line bus_line) (segments st)) in
  match positions_from X Y 0 route_segments None None with
  | (Some start_position, Some end_position) =>
      let '(start_position, end_position) :=
        if end_position <? start_position then (end_position, start_position)
        else (start_position, end_position) in
      let between_segments :=
        firstn (end_position + 1 - start_position) (skipn start_position route_segments) in
      Some (mkBetweenEntry bus_line (map seg_stop between_segments)
              (List.length between_segments) (map seg_order between_segments))
  | _ => None
  end.

Definition find_stops_between (st : Store) (X Y : BusStop) : list BetweenEntry :=
  flat_map (fun L => match stops_between_on_line st X Y L with
                     | Some e => [e]
                     | None => []
                     end)
           (common_bus_lines st X Y).

(* ------------------------------------------------------------------ *)
(** ** Route assembly (search_route, search_type 'bus_stop', after both
       stops are resolved; the [RouteSearch] log row is not modelled) *)

Inductive SearchResult :=
| DirectLines (line_numbers : list Z)
| TransferRoute (transfer_details : list SegmentDetails)
    (total_distance_km total_time_minutes : option Q) (num_transfers : nat)
| NoValidTransferRoute   (* "No valid transfer route could be constructed." *)
| NoRouteFound           (* "No direct or transfer route found between ..." *)
| SearchError (e : exn). (* "An error occurred during search: ..." *)

(** [... .distinct().order_by('line_number')] *)
Definition direct_bus_lines (st : Store) (X Y : BusStop) : list BusLine :=
  sort_by (fun l1 l2 => (line_number l1 <=? line_number l2)%Z) (common_bus_lines st X Y).

(** One iteration of [for segment_info in transfer_path]; a failed
    [objects.get] is [DoesNotExist], caught by [continue]. *)
Definition transfer_leg_details (net : Network) (st : Store) (leg : Leg)
  : outcome (option SegmentDetails) :=
  match find (fun l => line_id l =? leg_line_id leg) (lines st),
        find (fun s => stop_id s =? leg_start_stop_id leg) (stops st),
        find (fun s => stop_id s =? leg_end_stop_id leg) (stops st) with
  | Some bus_line, Some a, Some b => get_segment_details net st bus_line a b
  | _, _, _ => Ret None
  end.

Fixpoint collect_transfer_details (net : Network) (st : Store) (legs : list Leg)
  : outcome (list SegmentDetails) :=
  match legs with
  | [] => Ret []
  | l :: r =>
      d <- transfer_leg_details net st l ;;
      rest <- collect_transfer_details net st r ;;
      Ret (match d with Some x => x :: rest | None => rest end)
  end.

Definition sum_available (f : SegmentDetails -> option Q) (ds : list SegmentDetails) : Q :=
  fold_left (fun acc d => match f d with Some x => (acc + x)%Q | None => acc end) ds 0%Q.

Definition positive_or_na (x : Q) : option Q :=
  if Qlt_le_dec 0 x then Some x else None.

Definition search_route_bus_stop (fuel : nat) (net : Network) (st : Store)
    (start_stop_obj end_stop_obj : BusStop) : outcome SearchResult :=
  match direct_bus_lines st start_stop_obj end_stop_obj with
  | (_ :: _) as direct => Ret (DirectLines (map line_number direct))
  | [] =>
      match find_shortest_path fuel st (stop_id start_stop_obj) (stop_id end_stop_obj) with
      | Raise e => Ret (SearchError e)
      | OutOfFuel => OutOfFuel
      | Ret [] => Ret NoRouteFound
      | Ret transfer_path =>
          match collect_transfer_details net st transfer_path with
          | Raise e => Ret (SearchError e)
          | OutOfFuel => OutOfFuel
          | Ret [] => Ret NoValidTransferRoute
          | Ret transfer_details =>
              Ret (TransferRoute transfer_details
                     (positive_or_na (sum_available total_distance_km transfer_details))
                     (positive_or_na (sum_available total_time_minutes transfer_details))
                     (List.length transfer_path - 1))
          end
      end
  end.

(* ------------------------------------------------------------------ *)
(** ** Concrete stores used by the examples below *)

Definition plain_stop (i : nat) : BusStop := mkBusStop i "" "" None None None None.

Definition line_10 : BusLine := mkBusLine 1 10 "".
Definition line_20 : BusLine := mkBusLine 2 20 "".

(** Line 10 runs 1 -> 2; line 20 runs 1 -> 2 -> 3. *)
Definition two_line_store : Store :=
  mkStore [plain_stop 1; plain_stop 2; plain_stop 3] [line_10; line_20]
    [mkRouteSegment line_10 (plain_stop 1) 1; mkRouteSegment line_10 (plain_stop 2) 2;
     mkRouteSegment line_20 (plain_stop 1) 1; mkRouteSegment line_20 (plain_stop 2) 2;
     mkRouteSegment line_20 (plain_stop 3) 3].

(** The 0-transfer walk 1 -> 2 -> 3 on line 20. *)
Definition line_20_walk : list Edge := [mkEdge 2 2 20; mkEdge 3 2 20].

(** Line 10 runs 1 -> 2 -> 3. *)
Definition one_line_store : Store :=
  mkStore [plain_stop 1; plain_stop 2; plain_stop 3] [line_10]
    [mkRouteSegment line_10 (plain_stop 1) 1; mkRouteSegment line_10 (plain_stop 2) 2;
     mkRouteSegment line_10 (plain_stop 3) 3].

(** Two stops and no line. *)
Definition disconnected_store : Store := mkStore [plain_stop 1; plain_stop 2] [] [].

Definition offline_net : Network := fun _ => RequestFailed.

Definition ok_body (meters seconds : Q) : json :=
  JObj [("code", JStr "Ok");
        ("routes", JArr [JObj [("distance", JNum meters); ("duration", JNum seconds)]])]%string.

Definition ok_net : Network := fun _ => Response 200 (Some (ok_body 1500 120)).

Definition central_main_road : BusStop :=
  mkBusStop 1 "Central" "Central" (Some "Main Road"%string) (Some "Main Road"%string) None None.
Definition central_no_road : BusStop :=
  mkBusStop 2 "Central" "Central" None None None None.

(** Stop 2 stored at latitude 0. *)
Definition zero_lat_store : Store :=
  mkStore [] [line_10]
    [mkRouteSegment line_10 (mkBusStop 1 "" "" None None (Some 16800000%Z) (Some 96100000%Z)) 1;
     mkRouteSegment line_10 (mkBusStop 2 "" "" None None (Some 0%Z) (Some 96200000%Z)) 2;
     mkRouteSegment line_10 (mkBusStop 3 "" "" None None (Some 16900000%Z) (Some 96300000%Z)) 3].

(** The store with the coordinates of stop [sid] replaced. *)
Definition with_stop_coords (sid : nat) (lat lng : option Z) (b : BusStop) : BusStop :=
  if stop_id b =? sid
  then mkBusStop (stop_id b) (name_mm b) (name_en b) (road_name_mm b) (road_name_en b) lat lng
  else b.

Definition store_with_coords (sid : nat) (lat lng : option Z) (st : Store) : Store :=
  mkStore (map (with_stop_coords sid lat lng) (stops st)) (lines st)
    (map (fun s => mkRouteSegment (seg_line s) (with_stop_coords sid lat lng (seg_stop s))
                     (seg_order s)) (segments st)).

(** The stop sequence of a get_segment_details result. *)
Definition route_stops_of (r : outcome (option SegmentDetails)) : option (list StopDisplay) :=
  match r with
  | Ret (Some d) => Some (route_stops d)
  | _ => None
  end.

(* ------------------------------------------------------------------ *)
(** ** Line service *)

(** Some segment puts stop [a] on the line with id [l]. *)
Definition serves (st : Store) (l a : nat) : bool :=
  existsb (fun s => (line_id (seg_line s) =? l) && (stop_id (seg_stop s) =? a))
          (segments st).

(* ------------------------------------------------------------------ *)
(** ** search_route, search_type 'bus_line'

    From [BusLine.objects.get(line_number=...)] on; the line number is
    taken as the integer Django converts the query string to. *)

Inductive BusLineSearch :=
| FullLine (details : SegmentDetails)   (* results.append(segment_data) *)
| NoLineResult                          (* segment_data is None: no result, no message *)
| InvalidLineNumber                     (* BusLine.DoesNotExist *)
| NoSegmentsForLine                     (* "No segments found for bus line ..." *)
| LineSearchFailed.                     (* any other exception *)

Definition search_bus_line (net : Network) (st : Store) (bus_line_number : Z)
  : BusLineSearch :=
  match filter (fun l => (line_number l =? bus_line_number)%Z) (lines st) with
  | [] => InvalidLineNumber
  | [bus_line] =>
      let all_segments := sort_by order_le (filter (on_line bus_line) (segments st)) in
      match all_segments with
      | [] => NoSegmentsForLine
      | first :: _ =>
          let start_stop_obj := seg_stop first in
          let end_stop_obj := seg_stop (last all_segments first) in
          match get_segment_details net st bus_line start_stop_obj end_stop_obj with
          | Ret (Some segment_data) => FullLine segment_data
          | Ret None => NoLineResult
          | _ => LineSearchFailed
          end
      end
  | _ => LineSearchFailed   (* MultipleObjectsReturned *)
  end.

(* ------------------------------------------------------------------ *)
(** ** search_route, search_type 'buses_by_stop'

    From the resolved [target_stop] on.  Of each listed dict the fields
    that depend on the line are kept; [route_type], [searched_stop_name]
    and the target's coordinates are the same in every entry. *)

Record LineInfo := mkLineInfo {
  li_bus_line_number : Z;
  li_stops_count : nat;
  li_total_distance_km : option Q;
  li_total_time_minutes : option Q;
  li_full_line_start_stop_name : string;
  li_full_line_end_stop_name : string
}.

(** The dict built for one line; [line_coords_for_osrm] keeps the stops
    whose latitude and longitude are both truthy, as [route_stops_coords]. *)
Definition line_info (net : Network) (st : Store) (bus_line : BusLine) : outcome LineInfo :=
  let all_line_segments := sort_by order_le (filter (on_line bus_line) (segments st)) in
  let line_coords_for_osrm := route_stops_coords all_line_segments in
  r <- get_route_details_from_osrm net line_coords_for_osrm ;;
  let '(total_line_distance, total_line_time) := r in
  Ret (mkLineInfo (line_number bus_line) (List.length all_line_segments)
         total_line_distance total_line_time
         (match all_line_segments with [] => "" | f :: _ => name_en (seg_stop f) end)
         (match all_line_segments with
          | [] => ""
          | f :: _ => name_en (seg_stop (last all_line_segments f))
          end)).

(** The [for segment in segments_at_stop] loop with [processed_bus_lines]. *)
Fixpoint buses_by_stop_loop (net : Network) (st : Store) (processed_bus_lines : list Z)
    (segs : list RouteSegment) : outcome (list LineInfo) :=
  match segs with
  | [] => Ret []
  | segment :: r =>
      let bus_line := seg_line segment in
      if existsb (Z.eqb (line_number bus_line)) processed_bus_lines
      then buses_by_stop_loop net st processed_bus_lines r
      else
        info <- line_info net st bus_line ;;
        rest <- buses_by_stop_loop net st (line_number bus_line :: processed_bus_lines) r ;;
        Ret (info :: rest)
  end.

Inductive StopLinesSearch :=
| StopLines (found_bus_lines_info : list LineInfo)
| NoLinesAtStop          (* "No bus lines found for ..." *)
| StopLinesFailed.       (* "An error occurred during search: ..." *)

Definition search_buses_by_stop (net : Network) (st : Store) (target_stop : BusStop)
  : StopLinesSearch :=
  let segments_at_stop :=
    sort_by (fun a b => (line_number (seg_line a) <=? line_number (seg_line b))%Z)
            (filter (at_stop target_stop) (segments st)) in
  match segments_at_stop with
  | [] => NoLinesAtStop
  | _ :: _ =>
      match buses_by_stop_loop net st [] segments_at_stop with
      | Ret found_bus_lines_info =>
          StopLines (sort_by (fun a b => (li_bus_line_number a <=? li_bus_line_number b)%Z)
                             found_bus_lines_info)
      | _ => StopLinesFailed
      end
  end.

(* ------------------------------------------------------------------ *)
(** ** bus_line_route_api *)

(** One dict of the response, without its [id]. *)
Record RouteApiEntry := mkRouteApiEntry {
  rae_order : Z;
  rae_start_stop_name_mm : option string;
  rae_end_stop_name_mm : option string
}.

Inductive RouteApiResponse :=
| RouteApiData (data : list RouteApiEntry)
| RouteApiError (status : Z).

(** Reading an attribute of a [RouteSegment] instance that would hold a
    stop: the model's only such field is [bus_stop]; any other name raises
    [AttributeError]. *)
Definition route_segment_stop_attr (segment : RouteSegment) (name : string)
  : outcome BusStop :=
  if String.eqb name "bus_stop" then Ret (seg_stop segment) else Raise AttributeError.

(** The dict of one segment; [x.name_mm if x else None] first reads [x]. *)
Definition route_api_entry (segment : RouteSegment) : outcome RouteApiEntry :=
  start_stop <- route_segment_stop_attr segment "start_stop" ;;
  end_stop <- route_segment_stop_attr segment "end_stop" ;;
  Ret (mkRouteApiEntry (seg_order segment) (Some (name_mm start_stop))
         (Some (name_mm end_stop))).

Fixpoint route_api_loop (route_segments : list RouteSegment) : outcome (list RouteApiEntry) :=
  match route_segments with
  | [] => Ret []
  | segment :: r =>
      e <- route_api_entry segment ;;
      data <- route_api_loop r ;;
      Ret (e :: data)
  end.

Definition bus_line_route_api (st : Store) (bus_line_id : nat) : RouteApiResponse :=
  let route_segments :=
    sort_by order_le (filter (fun s => line_id (seg_line s) =? bus_line_id) (segments st)) in
  match route_api_loop route_segments with
  | Ret data => RouteApiData data
  | _ => RouteApiError 500
  end.

(* ------------------------------------------------------------------ *)
(** ** register_view, after [form.is_valid()]

    The user table as its (username, email) rows.  [create_user] stores the
    email through the user manager's [normalize_email], a parameter here. *)

Record UserRow := mkUserRow {
  user_username : string;
  user_email : string
}.

Inductive RegisterOutcome :=
| Registered      (* create_user, login, redirect('home') *)
| WeakPassword    (* "Password must be at least 8 characters long ..." *)
| UsernameTaken   (* "This username is already taken. ..." *)
| EmailTaken.     (* "This email is already registered. ..." *)

(** [char.isdigit()] on an ASCII character *)
Definition is_digit (c : ascii) : bool :=
  let n := nat_of_ascii c in (48 <=? n) && (n <=? 57).

(** [any(char.isdigit() for char in password)] *)
Fixpoint any_digit (s : string) : bool :=
  match s with
  | EmptyString => false
  | String c r => is_digit c || any_digit r
  end.

Definition register_view (normalize_email : string -> string) (users : list UserRow)
    (username email password : string) : RegisterOutcome * list UserRow :=
  if (String.length password <? 8) || negb (any_digit password) then (WeakPassword, users)
  else if existsb (fun u => String.eqb (user_username u) username) users
  then (UsernameTaken, users)
  else if existsb (fun u => String.eqb (user_email u) email) users
  then (EmailTaken, users)
  else (Registered, users ++ [mkUserRow username (normalize_email email)]).

(* ------------------------------------------------------------------ *)
(** ** Saved routes (save_route, saved_route_api, delete_saved_route) *)

Record SavedRouteRow := mkSavedRouteRow {
  sr_id : nat;
  sr_user : nat;
  sr_start_stop : BusStop;
  sr_end_stop : BusStop;
  sr_name : option string
}.

(** [SavedRoute.objects.filter(id=route_id, user=request.user)] *)
Definition own_routes (routes : list SavedRouteRow) (user route_id : nat) : list SavedRouteRow :=
  filter (fun r => (sr_id r =? route_id) && (sr_user r =? user)) routes.

(** save_route, POST with a valid form: the row gets the id [new_id] the
    database assigns. *)
Definition save_route (routes : list SavedRouteRow) (user new_id : nat)
    (name : option string) (start_stop end_stop : BusStop) : list SavedRouteRow :=
  routes ++ [mkSavedRouteRow new_id user start_stop end_stop name].

Record SavedRouteData := mkSavedRouteData {
  srd_id : nat;
  srd_name : option string;
  srd_start_stop_name_en : string;
  srd_start_stop_name_mm : string;
  srd_end_stop_name_en : string;
  srd_end_stop_name_mm : string
}.

Inductive SavedRouteApiResponse :=
| SavedRouteJson (data : SavedRouteData)
| SavedRouteApiError (status : Z).   (* 404: DoesNotExist; 500: any other exception *)

Definition saved_route_api (routes : list SavedRouteRow) (user route_id : nat)
  : SavedRouteApiResponse :=
  match own_routes routes user route_id with
  | [] => SavedRouteApiError 404
  | [saved_route] =>
      SavedRouteJson (mkSavedRouteData (sr_id saved_route) (sr_name saved_route)
        (name_en (sr_start_stop saved_route)) (name_mm (sr_start_stop saved_route))
        (name_en (sr_end_stop saved_route)) (name_mm (sr_end_stop saved_route)))
  | _ => SavedRouteApiError 500   (* MultipleObjectsReturned *)
  end.

Inductive DeleteOutcome :=
| RouteDeleted      (* "Route deleted successfully!", redirect('home') *)
| Http404
| ServerError.      (* MultipleObjectsReturned, not caught *)

(** [route.delete()] removes the row with the route's primary key. *)
Definition delete_saved_route (routes : list SavedRouteRow) (user route_id : nat)
  : DeleteOutcome * list SavedRouteRow :=
  match own_routes routes user route_id with
  | [] => (Http404, routes)
  | [route] => (RouteDeleted, filter (fun r => negb (sr_id r =? sr_id route)) routes)
  | _ => (ServerError, routes)
  end.

(* ------------------------------------------------------------------ *)
(** ** BusStop.__str__ (models.py) *)

Definition bus_stop_str (b : BusStop) : string :=
  match road_name_en b with
  | Some r => if Py.truthy_str r then (name_en b ++ " (" ++ r ++ ")")%string else name_en b
  | None => name_en b
  end.

(* ------------------------------------------------------------------ *)
(** ** Edges a pair of consecutive segments adds to the graph *)

(** The pair [(sa, sb)] of line [lid] puts [e] in [graph[x]]. *)
Definition pair_edge (lid : nat) (p : RouteSegment * RouteSegment) (x : nat) (e : Edge)
  : Prop :=
  e_line_id e = lid /\ e_line_number e = line_number (seg_line (fst p)) /\
  ((x = stop_id (seg_stop (fst p)) /\ e_stop_id e = stop_id (seg_stop (snd p))) \/
   (x = stop_id (seg_stop (snd p)) /\ e_stop_id e = stop_id (seg_stop (fst p)))).

(** Line 10 runs 1 -> 2 and line 20 runs 2 -> 3: no line serves 1 and 3. *)
Definition transfer_store : Store :=
  mkStore [plain_stop 1; plain_stop 2; plain_stop 3] [line_10; line_20]
    [mkRouteSegment line_10 (plain_stop 1) 1; mkRouteSegment line_10 (plain_stop 2) 2;
     mkRouteSegment line_20 (plain_stop 2) 1; mkRouteSegment line_20 (plain_stop 3) 2].

(** Line 10 runs 1 -> 2 -> 1. *)
Definition circular_seg_1 : RouteSegment := mkRouteSegment line_10 (plain_stop 1) 1.
Definition circular_seg_2 : RouteSegment := mkRouteSegment line_10 (plain_stop 2) 2.
Definition circular_seg_3 : RouteSegment := mkRouteSegment line_10 (plain_stop 1) 3.

Definition circular_store : Store :=
  mkStore [plain_stop 1; plain_stop 2] [line_10]
    [circular_seg_1; circular_seg_2; circular_seg_3].

(* ================================================================== *)
(** * Proofs *)

(** ** Strings *)

Lemma contains_append : forall c a b,
  Py.contains c (a ++ b)%string = Py.contains c a || Py.contains c b.
Proof.
  intros c a b; induction a as [|d a IH]; simpl; [reflexivity|].
  rewrite IH, orb_assoc; reflexivity.
Qed.

Lemma split_last_some : forall c s p q,
  Py.split_last c s = Some (p, q) ->
  s = (p ++ String c q)%string /\ Py.contains c q = false.
Proof.
  intros c s; induction s as [|d r IH]; intros p q H; simpl in H; [discriminate|].
  destruct (Py.split_last c r) as [[p' q']|] eqn:E.
  - injection H as <- <-. destruct (IH p' q' eq_refl) as [-> Hq]. split; auto.
  - destruct (Ascii.eqb d c) eqn:Edc; [|discriminate].
    injection H as <- <-. apply Ascii.eqb_eq in Edc; subst d. split; [reflexivity|].
    destruct (Py.contains c r) eqn:Cr; [|reflexivity].
    exfalso. clear IH. induction r as [|e r IHr]; simpl in *; [discriminate|].
    destruct (Py.split_last c r) as [[]|]; [discriminate|].
    destruct (Ascii.eqb e c); [discriminate|]. auto.
Qed.

Lemma split_last_contains : forall c s,
  Py.contains c s = true -> exists p q, Py.split_last c s = Some (p, q).
Proof.
  intros c s; induction s as [|d r IH]; simpl; intros H; [discriminate|].
  destruct (Py.split_last c r) as [[p q]|]; [eauto|].
  destruct (Ascii.eqb d c) eqn:E; [eauto|].
  simpl in H. destruct (IH H) as (p & q & Hs). discriminate.
Qed.

Lemma endswith_append : forall c d p q,
  Py.endswith c (p ++ String d q)%string = true -> c <> d -> Py.endswith c q = true.
Proof.
  intros c d p q; induction p as [|a p IH]; intros H Hcd; simpl in *.
  - destruct q; [|exact H]. apply Ascii.eqb_eq in H. congruence.
  - destruct (p ++ String d q)%string eqn:E; [destruct p; discriminate|]. auto.
Qed.

Lemma endswith_split : forall c s,
  Py.endswith c s = true ->
  exists s', s = (s' ++ String c "")%string /\ Py.drop_last s = s'.
Proof.
  intros c s; induction s as [|d r IH]; intros H; simpl in H; [discriminate|].
  destruct r as [|e r'].
  - apply Ascii.eqb_eq in H; subst. exists ""%string; split; reflexivity.
  - destruct (IH H) as (s' & Hs & Hd). exists (String d s'). split.
    + simpl. rewrite <- Hs. reflexivity.
    + change (Py.drop_last (String d (String e r')))
        with (String d (Py.drop_last (String e r'))).
      rewrite Hd. reflexivity.
Qed.

(** C6: when the string contains '(' and ends with ')', it is split at its
    last '(' (the suffix [q] holds no '('): the trimmed prefix is the name
    and the suffix without its trailing ')', trimmed, is the road; otherwise
    the whole string is the name and there is no road. *)
Theorem parse_stop_name_with_road_spec : forall full_name,
  (Py.contains "(" full_name && Py.endswith ")" full_name = true ->
   exists p q,
     full_name = (p ++ String "(" (q ++ ")"))%string /\
     Py.contains "(" q = false /\
     parse_stop_name_with_road full_name = (Py.strip p, Some (Py.strip q))) /\
  (Py.contains "(" full_name && Py.endswith ")" full_name = false ->
   parse_stop_name_with_road full_name = (full_name, None)).
Proof.
  intros s; split; intros H; unfold parse_stop_name_with_road; rewrite H; [|reflexivity].
  apply andb_true_iff in H as [Hc He].
  destruct (split_last_contains _ _ Hc) as (p & q & Hs).
  destruct (split_last_some _ _ _ _ Hs) as [Heq Hq].
  assert (Hq' : Py.endswith ")" q = true).
  { rewrite Heq in He. apply (endswith_append _ _ _ _ He). intro X; discriminate X. }
  destruct (endswith_split _ _ Hq') as (q' & -> & Hd).
  exists p, q'. repeat split.
  - exact Heq.
  - rewrite contains_append in Hq. apply orb_false_iff in Hq as [Hq _]. exact Hq.
  - unfold Py.rsplit1. rewrite Hs, Hd. reflexivity.
Qed.

Lemma parse_stop_name_with_road_spec_witness :
  (exists p q,
     "Central (Main Road)"%string = (p ++ String "(" (q ++ ")"))%string /\
     Py.contains "(" q = false /\
     parse_stop_name_with_road "Central (Main Road)" = (Py.strip p, Some (Py.strip q))) /\
  parse_stop_name_with_road "Central" = ("Central", None)%string.
Proof.
  split.
  - apply (proj1 (parse_stop_name_with_road_spec "Central (Main Road)")). reflexivity.
  - apply (proj2 (parse_stop_name_with_road_spec "Central")). reflexivity.
Defined.

(** ** Stop name resolution *)

Lemma find_of_existsb {A} (f : A -> bool) (l : list A) :
  existsb f l = true -> exists x, find f l = Some x /\ In x l /\ f x = true.
Proof.
  induction l as [|a l IH]; simpl; [discriminate|].
  destruct (f a) eqn:E; simpl.
  - intros _. exists a. auto.
  - intros H. destruct (IH H) as (x & ? & ? & ?). exists x. auto.
Qed.

Lemma existsb_ext_eq {A} (f g : A -> bool) (l : list A) :
  (forall x, f x = g x) -> existsb f l = existsb g l.
Proof. intros H. induction l as [|x l IH]; simpl; [reflexivity|]. rewrite H, IH. reflexivity. Qed.

Lemma find_ext_eq {A} (f g : A -> bool) (l : list A) :
  (forall x, f x = g x) -> find f l = find g l.
Proof. intros H. induction l as [|x l IH]; simpl; [reflexivity|]. rewrite H, IH. reflexivity. Qed.

(** C7 (as amended): for a search string that parses to a name and a
    non-empty road qualifier, the stop returned is the first stop matching
    (name, road) case-insensitively in English or in Myanmar, and only when
    there is none the first stop matching the name alone; in particular a
    stop matching both name and road is returned whenever one exists.  An
    empty qualifier is treated as no qualifier: the first stop of that name
    whose road in the same language is NULL or empty is returned, and only
    when there is none the first stop matching the name alone. *)
Theorem get_bus_stop_object_with_road : forall all_stops stop_name_raw name road,
  parse_stop_name_with_road stop_name_raw = (name, Some road) ->
  (road <> EmptyString ->
   get_bus_stop_object all_stops stop_name_raw = spec_resolve_with_road all_stops name road /\
   ((exists s, In s all_stops /\ spec_exact_match name road s = true) ->
    exists s, get_bus_stop_object all_stops stop_name_raw = Some s /\
              In s all_stops /\ spec_exact_match name road s = true)) /\
  (road = EmptyString ->
   get_bus_stop_object all_stops stop_name_raw = spec_resolve_empty_road all_stops name /\
   ((exists s, In s all_stops /\ spec_no_road_match name s = true) ->
    exists s, get_bus_stop_object all_stops stop_name_raw = Some s /\
              In s all_stops /\ spec_no_road_match name s = true)).
Proof.
  intros all_stops raw name road Hp. split.
  - intros Hr.
    assert (Heq : get_bus_stop_object all_stops raw = spec_resolve_with_road all_stops name road).
    { unfold get_bus_stop_object. rewrite Hp.
      destruct road as [|c r]; [contradiction|]. cbn zeta.
      unfold spec_resolve_with_road, filter_first, Py.truthy_str.
      destruct (existsb _ all_stops); reflexivity. }
    split; [exact Heq|].
    intros Hex. rewrite Heq. unfold spec_resolve_with_road.
    assert (Hb : existsb (spec_exact_match name road) all_stops = true).
    { apply existsb_exists. destruct Hex as (s & ? & ?). eauto. }
    rewrite Hb. destruct (find_of_existsb _ _ Hb) as (x & Hx & ? & ?). eauto.
  - intros ->.
    assert (Hq : forall s, spec_no_road_match name s =
      (iexact (name_en s) name && isnull (road_name_en s)) ||
      (iexact (name_en s) name && iexact_opt (road_name_en s) "") ||
      (iexact (name_mm s) name && isnull (road_name_mm s)) ||
      (iexact (name_mm s) name && iexact_opt (road_name_mm s) "")).
    { intros s. unfold spec_no_road_match, isnull, iexact_opt.
      destruct (iexact (name_en s) name), (iexact (name_mm s) name),
               (road_name_en s), (road_name_mm s); simpl;
        rewrite ?orb_false_r; reflexivity. }
    assert (Heq : get_bus_stop_object all_stops raw = spec_resolve_empty_road all_stops name).
    { unfold get_bus_stop_object. rewrite Hp. cbn zeta.
      unfold spec_resolve_empty_road, filter_first, Py.truthy_str.
      rewrite (existsb_ext_eq _ _ _ Hq), (find_ext_eq _ _ _ Hq).
      destruct (existsb _ all_stops); reflexivity. }
    split; [exact Heq|].
    intros Hex. rewrite Heq. unfold spec_resolve_empty_road.
    assert (Hb : existsb (spec_no_road_match name) all_stops = true).
    { apply existsb_exists. destruct Hex as (s & ? & ?). eauto. }
    rewrite Hb. destruct (find_of_existsb _ _ Hb) as (x & Hx & ? & ?). eauto.
Qed.

Lemma get_bus_stop_object_with_road_witness :
  (get_bus_stop_object [central_no_road; central_main_road] "Central (Main Road)"
   = spec_resolve_with_road [central_no_road; central_main_road] "Central" "Main Road"
   /\ spec_resolve_with_road [central_no_road; central_main_road] "Central" "Main Road"
      = Some central_main_road) /\
  (get_bus_stop_object [central_main_road; central_no_road] "Central ()"
   = spec_resolve_empty_road [central_main_road; central_no_road] "Central"
   /\ spec_resolve_empty_road [central_main_road; central_no_road] "Central"
      = Some central_no_road).
Proof.
  split; split.
  - apply (proj1 (get_bus_stop_object_with_road _ "Central (Main Road)" "Central" "Main Road"
                    ltac:(vm_compute; reflexivity))).
    discriminate.
  - vm_compute. reflexivity.
  - apply (proj2 (get_bus_stop_object_with_road _ "Central ()" "Central" ""
                    ltac:(vm_compute; reflexivity))).
    reflexivity.
  - vm_compute. reflexivity.
Defined.

(** C7 as stated fails for the empty qualifier of "Central ()": the code
    treats it as no qualifier and prefers the stop without a road, while
    the rule of the claim picks the first stop named "Central". *)
Lemma get_bus_stop_object_empty_road_counterexample :
  parse_stop_name_with_road "Central ()" = ("Central", Some "")%string /\
  get_bus_stop_object [central_main_road; central_no_road] "Central ()"
    = Some central_no_road /\
  spec_resolve_with_road [central_main_road; central_no_road] "Central" ""
    = Some central_main_road.
Proof. vm_compute. repeat split. Qed.

(** ** The shortest-path engine *)

(** C2: with the same stop as start and end the result is the empty path,
    whatever the store and without a single step of either loop (the
    fuel may be 0). *)
Theorem find_shortest_path_same_stop : forall fuel st a,
  find_shortest_path fuel st a a = Ret [].
Proof.
  intros fuel st a. unfold find_shortest_path. rewrite Nat.eqb_refl. reflexivity.
Qed.

Lemma reconstruct_legs : forall fuel all_lines preds start_stop_id end_stop_id
    current_stop_id path p,
  reconstruct fuel all_lines preds start_stop_id current_stop_id path = Ret p ->
  legs_chain current_stop_id path end_stop_id ->
  no_adjacent_same_line path = true ->
  no_adjacent_same_line p = true /\ (p <> [] -> legs_chain start_stop_id p end_stop_id).
Proof.
  induction fuel as [|fuel IH]; intros all_lines preds s e cur path p H Hc Hn;
    simpl in H; [discriminate|].
  destruct (cur =? s) eqn:Es.
  - injection H as <-. apply Nat.eqb_eq in Es; subst cur. split; auto.
  - destruct (dict_get preds cur) as [[[prev pl]|]|]; [|discriminate|].
    + eapply IH; [exact H| |].
      * destruct path as [|last r].
        -- simpl in Hc |- *. auto.
        -- destruct Hc as [Hs Hr]. destruct (leg_line_id last =? pl); simpl; auto.
      * destruct path as [|last r]; [reflexivity|].
        destruct (leg_line_id last =? pl) eqn:El.
        -- destruct r; simpl in *; auto.
        -- simpl. rewrite Nat.eqb_sym, El. simpl. exact Hn.
    + injection H as <-. split; [reflexivity|]. intros X; contradiction.
Qed.

(** C3: a returned path never has two adjacent legs on the same line, and
    its legs run in order from the start stop to the end stop. *)
Theorem find_shortest_path_legs_merged : forall fuel st start_stop_id end_stop_id p,
  find_shortest_path fuel st start_stop_id end_stop_id = Ret p ->
  no_adjacent_same_line p = true /\
  (p <> [] -> legs_chain start_stop_id p end_stop_id).
Proof.
  intros fuel st s e p H. unfold find_shortest_path in H.
  destruct (s =? e) eqn:Ese.
  - injection H as <-. split; [reflexivity|]. intros X; contradiction.
  - destruct (search_loop _ _ _ _) as [[found st']| |]; simpl in H; try discriminate.
    destruct found; simpl in H.
    + eapply reconstruct_legs; [exact H | reflexivity | reflexivity].
    + injection H as <-. split; [reflexivity|]. intros X; contradiction.
Qed.

Lemma find_shortest_path_legs_merged_witness :
  exists p, find_shortest_path 100 two_line_store 1 3 = Ret p /\
    (no_adjacent_same_line p = true /\ (p <> [] -> legs_chain 1 p 3)).
Proof.
  eexists. split.
  - vm_compute. reflexivity.
  - apply (find_shortest_path_legs_merged 100 two_line_store 1 3). vm_compute. reflexivity.
Defined.

(** C9: the empty list is returned for start = end, when the queue runs out
    before the end stop is popped, and when reconstruction meets a stop
    absent from the predecessor table; the route search, which only tests
    the list for emptiness, reports every such empty result with no direct
    line as "no route found", the same-stop query included. *)
Theorem find_shortest_path_empty_results :
  (forall fuel st a, find_shortest_path fuel st a a = Ret []) /\
  (forall fuel st start_stop_id end_stop_id s,
     start_stop_id <> end_stop_id ->
     search_loop fuel (build_graph (segments st)) end_stop_id
       (initial_state (stops st) start_stop_id) = Ret (false, s) ->
     find_shortest_path fuel st start_stop_id end_stop_id = Ret []) /\
  (forall fuel all_lines preds start_stop_id current_stop_id path,
     current_stop_id <> start_stop_id ->
     dict_get preds current_stop_id = None ->
     reconstruct (S fuel) all_lines preds start_stop_id current_stop_id path = Ret []) /\
  (forall fuel net st a b,
     direct_bus_lines st a b = [] ->
     find_shortest_path fuel st (stop_id a) (stop_id b) = Ret [] ->
     search_route_bus_stop fuel net st a b = Ret NoRouteFound) /\
  (forall fuel net st a,
     direct_bus_lines st a a = [] ->
     search_route_bus_stop fuel net st a a = Ret NoRouteFound).
Proof.
  assert (Hsame : forall fuel st a, find_shortest_path fuel st a a = Ret []).
  { intros fuel st a. unfold find_shortest_path. rewrite Nat.eqb_refl. reflexivity. }
  assert (Hsr : forall fuel net st a b,
     direct_bus_lines st a b = [] ->
     find_shortest_path fuel st (stop_id a) (stop_id b) = Ret [] ->
     search_route_bus_stop fuel net st a b = Ret NoRouteFound).
  { intros fuel net st a b Hd Hf. unfold search_route_bus_stop. rewrite Hd, Hf. reflexivity. }
  repeat split.
  - exact Hsame.
  - intros fuel st s e s' Hne Hl. unfold find_shortest_path.
    apply Nat.eqb_neq in Hne. rewrite Hne, Hl. reflexivity.
  - intros fuel all_lines preds s cur path Hne Hp. simpl.
    apply Nat.eqb_neq in Hne. rewrite Hne, Hp. reflexivity.
  - exact Hsr.
  - intros fuel net st a Hd. apply Hsr; [exact Hd | apply Hsame].
Qed.

Lemma find_shortest_path_empty_results_witness :
  find_shortest_path 10 disconnected_store 1 1 = Ret [] /\
  find_shortest_path 10 disconnected_store 1 2 = Ret [] /\
  reconstruct 1 [] [] 1 2 [] = Ret [] /\
  search_route_bus_stop 10 offline_net disconnected_store (plain_stop 1) (plain_stop 2)
    = Ret NoRouteFound /\
  search_route_bus_stop 10 offline_net disconnected_store (plain_stop 1) (plain_stop 1)
    = Ret NoRouteFound.
Proof.
  destruct find_shortest_path_empty_results as (H1 & H2 & H3 & H4 & H5).
  refine (conj _ (conj _ (conj _ (conj _ _)))).
  - apply H1.
  - eapply H2; [discriminate | vm_compute; reflexivity].
  - apply H3; [discriminate | reflexivity].
  - apply H4; vm_compute; reflexivity.
  - apply H5. vm_compute. reflexivity.
Defined.

(** C1 fails on [two_line_store]: the search from stop 1 to stop 3 returns
    two legs (line 10 then line 20, one transfer), while the walk
    1 -> 2 -> 3 along line 20 alone is a path of the graph with no
    transfer.  Stop 2 is first reached on line 10 at cost 0; reaching it
    on line 20, also at cost 0, is not strictly better and is dropped. *)
Theorem find_shortest_path_extra_transfer :
  find_shortest_path 100 two_line_store 1 3
    = Ret [mkLeg 1 2 1 (Some 10%Z); mkLeg 2 3 2 (Some 20%Z)] /\
  path_transfers [mkLeg 1 2 1 (Some 10%Z); mkLeg 2 3 2 (Some 20%Z)] = 1 /\
  walk_ok (build_graph (segments two_line_store)) 1 line_20_walk 3 = true /\
  walk_transfers line_20_walk = 0.
Proof. vm_compute. repeat split. Qed.

(** ** Generic facts on lists and sorting *)

Section Sorting.
Context {A : Type}.

Lemma insert_by_perm (le : A -> A -> bool) x l :
  Permutation (insert_by le x l) (x :: l).
Proof.
  induction l as [|y l IH]; simpl; [reflexivity|].
  destruct (le x y); [reflexivity|].
  rewrite IH. apply perm_swap.
Qed.

Lemma sort_by_perm (le : A -> A -> bool) l : Permutation (sort_by le l) l.
Proof.
  induction l as [|x l IH]; simpl; [reflexivity|].
  unfold sort_by in *; simpl. rewrite insert_by_perm. apply perm_skip, IH.
Qed.

Lemma insert_by_hdrel (le : A -> A -> bool) a x l :
  HdRel (fun u v => le u v = true) a l -> le a x = true ->
  HdRel (fun u v => le u v = true) a (insert_by le x l).
Proof.
  destruct l as [|y l]; simpl; intros H Hax; [constructor; exact Hax|].
  destruct (le x y); constructor; [exact Hax|]. inversion H; assumption.
Qed.

Lemma insert_by_sorted (le : A -> A -> bool)
    (le_total : forall a b, le a b = false -> le b a = true) x l :
  Sorted (fun u v => le u v = true) l ->
  Sorted (fun u v => le u v = true) (insert_by le x l).
Proof.
  induction l as [|y l IH]; simpl; intros H; [repeat constructor|].
  destruct (le x y) eqn:Exy; [constructor; [exact H | constructor; exact Exy]|].
  inversion H as [|? ? Hl Hy]; subst.
  constructor; [apply IH, Hl|].
  apply insert_by_hdrel; [exact Hy | apply le_total, Exy].
Qed.

Lemma sort_by_sorted (le : A -> A -> bool)
    (le_total : forall a b, le a b = false -> le b a = true) l :
  Sorted (fun u v => le u v = true) (sort_by le l).
Proof.
  induction l as [|x l IH]; [constructor|].
  unfold sort_by in *; simpl. apply insert_by_sorted; assumption.
Qed.

Lemma sort_by_map {B} (le : A -> A -> bool) (le' : B -> B -> bool) (f : A -> B) l :
  (forall a b, le' (f a) (f b) = le a b) ->
  sort_by le' (map f l) = map f (sort_by le l).
Proof.
  intros Hf. induction l as [|x l IH]; [reflexivity|].
  unfold sort_by in *; simpl. rewrite IH. clear IH.
  induction (fold_right (insert_by le) [] l) as [|y r IHr]; simpl; [reflexivity|].
  rewrite Hf. destruct (le x y); [reflexivity|]. rewrite IHr. reflexivity.
Qed.

Lemma Permutation_filter' (f : A -> bool) l l' :
  Permutation l l' -> Permutation (filter f l) (filter f l').
Proof.
  induction 1; simpl.
  - constructor.
  - destruct (f x); [apply perm_skip|]; assumption.
  - destruct (f x), (f y); try apply perm_swap; reflexivity.
  - etransitivity; eassumption.
Qed.

Lemma filter_andb (f g : A -> bool) l :
  filter (fun x => f x && g x) l = filter g (filter f l).
Proof.
  induction l as [|x l IH]; simpl; [reflexivity|].
  destruct (f x); simpl; [destruct (g x)|]; rewrite ?IH; reflexivity.
Qed.

Lemma StronglySorted_filter (R : A -> A -> Prop) (f : A -> bool) l :
  StronglySorted R l -> StronglySorted R (filter f l).
Proof.
  induction 1 as [|x l Hl IH Hx]; simpl; [constructor|].
  destruct (f x); [|exact IH].
  constructor; [exact IH|].
  apply Forall_forall. intros y Hy. apply filter_In in Hy as [Hy _].
  rewrite Forall_forall in Hx. auto.
Qed.

Lemma StronglySorted_app (R : A -> A -> Prop) l1 l2 :
  StronglySorted R l1 -> StronglySorted R l2 ->
  (forall x y, In x l1 -> In y l2 -> R x y) -> StronglySorted R (l1 ++ l2).
Proof.
  induction 1 as [|x l1 Hl1 IH Hx]; intros H2 Hxy; simpl; [exact H2|].
  constructor.
  - apply IH; [exact H2|]. intros; apply Hxy; simpl; auto.
  - apply Forall_app. split; [exact Hx|].
    apply Forall_forall. intros y Hy. apply Hxy; simpl; auto.
Qed.

Lemma StronglySorted_rev (R : A -> A -> Prop) l :
  StronglySorted R l -> StronglySorted (fun a b => R b a) (rev l).
Proof.
  induction 1 as [|x l Hl IH Hx]; simpl; [constructor|].
  apply StronglySorted_app; [exact IH | repeat constructor|].
  intros a b Ha [<-|[]]. apply in_rev in Ha. rewrite Forall_forall in Hx. auto.
Qed.

(** Two strictly sorted permutations of each other are equal. *)
Lemma StronglySorted_unique (R : A -> A -> Prop)
    (R_asym : forall a b, R a b -> R b a -> False) : forall l1 l2,
  StronglySorted R l1 -> StronglySorted R l2 -> Permutation l1 l2 -> l1 = l2.
Proof.
  induction l1 as [|a l1 IH]; intros [|b l2] H1 H2 HP.
  - reflexivity.
  - apply Permutation_nil_cons in HP as [].
  - apply Permutation_sym, Permutation_nil_cons in HP as [].
  - apply StronglySorted_inv in H1 as [H1 Ha].
    apply StronglySorted_inv in H2 as [H2 Hb].
    rewrite Forall_forall in Ha, Hb.
    assert (a = b) as <-.
    { assert (Ia : In a (b :: l2)) by (eapply Permutation_in; [exact HP | left; reflexivity]).
      assert (Ib : In b (a :: l1))
        by (eapply Permutation_in; [apply Permutation_sym, HP | left; reflexivity]).
      destruct Ia as [|Ia]; [congruence|]. destruct Ib as [|Ib]; [congruence|].
      exfalso. eapply R_asym; [apply Ha, Ib | apply Hb, Ia]. }
    f_equal. apply IH; [exact H1 | exact H2 | eapply Permutation_cons_inv; exact HP].
Qed.

Context (K : A -> Z).

Lemma NoDup_map_filter (f : A -> bool) l :
  NoDup (map K l) -> NoDup (map K (filter f l)).
Proof.
  induction l as [|x l IH]; simpl; intros H; [constructor|].
  inversion H as [|? ? Hx Hl]; subst.
  destruct (f x); simpl; [|auto]. constructor; [|auto].
  intros Hin. apply Hx. apply in_map_iff in Hin as (y & Hy & Hin).
  apply filter_In in Hin as [Hin _]. rewrite <- Hy. apply in_map, Hin.
Qed.

Lemma NoDup_map_perm l l' :
  Permutation l l' -> NoDup (map K l) -> NoDup (map K l').
Proof.
  intros HP H. eapply Permutation_NoDup; [apply Permutation_map, HP | exact H].
Qed.

(** A list sorted by a non-strict key order with distinct keys is sorted
    strictly. *)
Lemma StronglySorted_strict (R S : A -> A -> Prop) l :
  (forall a b, R a b -> K a <> K b -> S a b) ->
  StronglySorted R l -> NoDup (map K l) -> StronglySorted S l.
Proof.
  intros HRS. induction 1 as [|x l Hl IH Hx]; simpl; intros Hn; [constructor|].
  inversion Hn as [|? ? Hnx Hnl]; subst.
  constructor; [auto|]. rewrite Forall_forall in *. intros y Hy.
  apply HRS; [auto|]. intros E. apply Hnx. rewrite E. apply in_map, Hy.
Qed.

Lemma StronglySorted_nth_lt l d :
  StronglySorted (fun a b => (K a < K b)%Z) l -> forall i j,
  i < j -> j < List.length l -> (K (nth i l d) < K (nth j l d))%Z.
Proof.
  induction 1 as [|x l Hl IH Hx]; simpl; intros i j Hij Hj; [lia|].
  destruct i as [|i], j as [|j]; try lia.
  - rewrite Forall_forall in Hx. apply Hx, nth_In. lia.
  - apply IH; lia.
Qed.

End Sorting.

(** ** The distance/duration provider *)

Lemma osrm_try_body_caught : forall resp,
  catch_all (osrm_try_body resp) (None, None) =
  Ret (match resp with
       | Response status (Some data) =>
           if ((400 <=? status) && (status <? 600))%Z then (None, None)
           else match osrm_well_formed data with
                | Some (d, t) => (Some d, Some t)
                | None => (None, None)
                end
       | _ => (None, None)
       end).
Proof.
  intros [|status body]; [reflexivity|].
  unfold osrm_try_body, raise_for_status, osrm_well_formed, truediv, json_number,
    getitem_key, getitem_0, dict_get_method, truthy.
  repeat (cbn -[obj_lookup String.eqb Qeq_bool];
          match goal with
          | |- context [match ?x with _ => _ end] => is_var x; destruct x
          | |- context [match ?x with _ => _ end] =>
              lazymatch x with
              | context [match _ with _ => _ end] => fail
              | _ => let E := fresh "E" in destruct x eqn:E
              end
          end);
    idtac.
  all: try reflexivity.
  all: exfalso; unfold obj_lookup in *; simpl in *; congruence.
Qed.

Lemma valid_coords_length : forall coords_list,
  List.length (valid_coords coords_list) <= List.length coords_list.
Proof.
  induction coords_list as [|[[a|] [b|]] r IH]; simpl; lia.
Qed.

Lemma get_route_details_from_osrm_ret : forall net coords_list,
  exists r, get_route_details_from_osrm net coords_list = Ret r.
Proof.
  intros net c. unfold get_route_details_from_osrm.
  destruct (List.length c <? 2); [eauto|].
  destruct (List.length (valid_coords c) <? 2); [eauto|].
  rewrite osrm_try_body_caught. eauto.
Qed.

(** C8: the lookup always returns (never raises); it returns a pair of
    numbers exactly when at least two points are usable, the request got a
    response with a non-error status whose body is a well-formed "Ok" reply
    (then kilometers and minutes), and (None, None) in every other case,
    among them fewer than two usable points and a transport failure or
    timeout. *)
Theorem get_route_details_from_osrm_degrades : forall net coords_list,
  exists r, get_route_details_from_osrm net coords_list = Ret r /\
  (r = (None, None) \/ exists d t, r = (Some d, Some t)) /\
  (List.length (valid_coords coords_list) < 2 -> r = (None, None)) /\
  (net (valid_coords coords_list) = RequestFailed -> r = (None, None)) /\
  (forall d t, r = (Some d, Some t) <->
     2 <= List.length (valid_coords coords_list) /\
     exists status data,
       net (valid_coords coords_list) = Response status (Some data) /\
       ~ (400 <= status < 600)%Z /\
       osrm_well_formed data = Some (d, t)).
Proof.
  intros net c. unfold get_route_details_from_osrm.
  pose proof (valid_coords_length c) as Hlen.
  destruct (List.length c <? 2) eqn:E1.
  { apply Nat.ltb_lt in E1. exists (None, None).
    split; [reflexivity|]. split; [left; reflexivity|].
    split; [auto|]. split; [auto|].
    intros d t. split; [discriminate|]. intros [Hc _]. lia. }
  destruct (List.length (valid_coords c) <? 2) eqn:E2.
  { apply Nat.ltb_lt in E2. exists (None, None).
    split; [reflexivity|]. split; [left; reflexivity|].
    split; [auto|]. split; [auto|].
    intros d t. split; [discriminate|]. intros [Hc _]. lia. }
  apply Nat.ltb_ge in E2.
  rewrite osrm_try_body_caught. eexists. split; [reflexivity|].
  destruct (net (valid_coords c)) as [|status [data|]] eqn:En.
  - repeat split; auto; try discriminate.
    intros [_ (status & data & H & _)]. discriminate.
  - destruct ((400 <=? status) && (status <? 600))%Z eqn:Es.
    + repeat split; auto; try (intros; lia); try discriminate.
      intros [_ (status' & data' & H & Hs & _)]. injection H as <- <-.
      apply andb_true_iff in Es as [Es1 Es2].
      apply Z.leb_le in Es1. apply Z.ltb_lt in Es2. lia.
    + destruct (osrm_well_formed data) as [[d' t']|] eqn:Ew.
      * split; [right; eauto|]. split; [intros; lia|]. split; [discriminate|].
        intros d t. split.
        -- intros H. injection H as <- <-. split; [exact E2|].
           exists status, data. repeat split; auto.
           intros [Hs1 Hs2]. apply Z.leb_le in Hs1. apply Z.ltb_lt in Hs2.
           rewrite Hs1, Hs2 in Es. discriminate.
        -- intros [_ (status' & data' & H & _ & Hw)]. injection H as <- <-.
           rewrite Ew in Hw. injection Hw as <- <-. reflexivity.
      * split; [left; reflexivity|]. split; [intros; lia|]. split; [discriminate|].
        intros d t. split; [discriminate|].
        intros [_ (status' & data' & H & _ & Hw)]. injection H as <- <-. congruence.
  - repeat split; auto; try discriminate.
    intros [_ (status' & data' & H & _)]. discriminate.
Qed.

Lemma get_route_details_from_osrm_degrades_witness :
  (exists r, get_route_details_from_osrm ok_net
               [(Some 16.8, Some 96.1); (Some 16.9, Some 96.2)]%Q = Ret r /\
             r = (Some (1500 / inject_Z 1000), Some (120 / inject_Z 60))%Q) /\
  (exists r, get_route_details_from_osrm offline_net
               [(Some 16.8, Some 96.1); (Some 16.9, Some 96.2)]%Q = Ret r /\
             r = (None, None)).
Proof.
  split.
  - destruct (get_route_details_from_osrm_degrades ok_net
                [(Some 16.8, Some 96.1); (Some 16.9, Some 96.2)]%Q)
      as (r & H & _ & _ & _ & Hiff).
    exists r. split; [exact H|]. apply Hiff. split; [simpl; lia|].
    exists 200%Z, (ok_body 1500 120). split; [reflexivity|]. split; [lia|]. reflexivity.
  - destruct (get_route_details_from_osrm_degrades offline_net
                [(Some 16.8, Some 96.1); (Some 16.9, Some 96.2)]%Q)
      as (r & H & _ & _ & Hf & _).
    exists r. split; [exact H|]. apply Hf. reflexivity.
Defined.

(** ** The segment extractor under a change of the stored stops *)

Lemma filter_map_comm {A B} (p : B -> bool) (g : A -> B) l :
  filter p (map g l) = map g (filter (fun x => p (g x)) l).
Proof.
  induction l as [|x l IH]; simpl; [reflexivity|].
  destruct (p (g x)); simpl; rewrite IH; reflexivity.
Qed.

Section Relabel.

(** [g] rewrites the stop record of a segment, keeping its line, its order
    and the primary key of its stop. *)
Variable g : RouteSegment -> RouteSegment.
Hypothesis g_line : forall s, seg_line (g s) = seg_line s.
Hypothesis g_order : forall s, seg_order (g s) = seg_order s.
Hypothesis g_stop : forall s, stop_id (seg_stop (g s)) = stop_id (seg_stop s).

Lemma segment_of_map st st' L X :
  segments st' = map g (segments st) ->
  segment_of st' L X = option_map g (segment_of st L X).
Proof.
  intros Hs. unfold segment_of. rewrite Hs, filter_map_comm.
  rewrite (filter_ext (fun x => on_line L (g x) && at_stop X (g x))
                      (fun x => on_line L x && at_stop X x))
    by (intros a; unfold on_line, at_stop; rewrite g_line, g_stop; reflexivity).
  rewrite (sort_by_map meta_le meta_le g)
    by (intros a b; unfold meta_le; rewrite !g_line, !g_order; reflexivity).
  destruct (sort_by meta_le _); reflexivity.
Qed.

Lemma segment_slice_map st st' L X Y :
  segments st' = map g (segments st) ->
  segment_slice st' L X Y = option_map (map g) (segment_slice st L X Y).
Proof.
  intros Hs. unfold segment_slice.
  rewrite (segment_of_map st st' L X Hs), (segment_of_map st st' L Y Hs).
  destruct (segment_of st L X) as [a|], (segment_of st L Y) as [b|];
    simpl; try reflexivity.
  rewrite !g_order, Hs, !filter_map_comm.
  destruct (seg_order a <=? seg_order b)%Z; simpl; f_equal.
  - rewrite <- (sort_by_map order_le order_le g)
      by (intros u v; unfold order_le; rewrite !g_order; reflexivity).
    f_equal. f_equal. apply filter_ext. intros u. unfold on_line. rewrite g_line, g_order.
    reflexivity.
  - rewrite <- (sort_by_map order_desc_le order_desc_le g)
      by (intros u v; unfold order_desc_le; rewrite !g_order; reflexivity).
    f_equal. f_equal. apply filter_ext. intros u. unfold on_line. rewrite g_line, g_order.
    reflexivity.
Qed.

End Relabel.

(** The result of get_segment_details only depends on the displayed stops
    and on the coordinates of the slice. *)
Lemma get_segment_details_ext net st1 st2 L X Y :
  option_map (map stop_display) (segment_slice st1 L X Y) =
  option_map (map stop_display) (segment_slice st2 L X Y) ->
  option_map route_stops_coords (segment_slice st1 L X Y) =
  option_map route_stops_coords (segment_slice st2 L X Y) ->
  get_segment_details net st1 L X Y = get_segment_details net st2 L X Y.
Proof.
  intros Hd Hc. unfold get_segment_details.
  destruct (segment_slice st1 L X Y) as [[|a l]|],
           (segment_slice st2 L X Y) as [[|b m]|];
    cbv beta iota delta [option_map] in Hd, Hc; try discriminate; try reflexivity.
  apply (f_equal (fun o => match o with Some v => v | None => [] end)) in Hd, Hc.
  change (map stop_display (a :: l) = map stop_display (b :: m)) in Hd.
  change (route_stops_coords (a :: l) = route_stops_coords (b :: m)) in Hc.
  cbv beta iota. rewrite Hc, Hd.
  replace (List.length (a :: l)) with (List.length (b :: m))
    by (rewrite <- (length_map stop_display (a :: l)),
                <- (length_map stop_display (b :: m)), Hd; reflexivity).
  reflexivity.
Qed.

Lemma route_stops_coords_ext (g1 g2 : RouteSegment -> RouteSegment) l :
  (forall s, segment_coord (g1 s) = segment_coord (g2 s)) ->
  route_stops_coords (map g1 l) = route_stops_coords (map g2 l).
Proof.
  intros H. induction l as [|s l IH]; simpl; [reflexivity|].
  rewrite H, IH. reflexivity.
Qed.

Lemma store_with_coords_segments sid lat lng st :
  segments (store_with_coords sid lat lng st) =
  map (fun s => mkRouteSegment (seg_line s) (with_stop_coords sid lat lng (seg_stop s))
                  (seg_order s)) (segments st).
Proof. reflexivity. Qed.

Lemma with_stop_coords_id sid lat lng b :
  stop_id (with_stop_coords sid lat lng b) = stop_id b.
Proof. unfold with_stop_coords. destruct (stop_id b =? sid); reflexivity. Qed.

Lemma store_with_coords_congr net st sid lat lng lat' lng' L X Y :
  decimal_to_float lat = decimal_to_float lat' ->
  decimal_to_float lng = decimal_to_float lng' ->
  get_segment_details net (store_with_coords sid lat lng st) L X Y =
  get_segment_details net (store_with_coords sid lat' lng' st) L X Y.
Proof.
  intros Hlat Hlng.
  set (g := fun la lo (s : RouteSegment) =>
              mkRouteSegment (seg_line s) (with_stop_coords sid la lo (seg_stop s))
                (seg_order s)).
  assert (Hs : forall la lo, segments (store_with_coords sid la lo st) =
                             map (g la lo) (segments st)) by reflexivity.
  assert (Hsl : forall la lo, segment_slice (store_with_coords sid la lo st) L X Y =
                              option_map (map (g la lo)) (segment_slice st L X Y)).
  { intros la lo. apply segment_slice_map; try reflexivity.
    intros s. apply with_stop_coords_id. }
  assert (Hpt : forall s, stop_display (g lat lng s) = stop_display (g lat' lng' s) /\
                          segment_coord (g lat lng s) = segment_coord (g lat' lng' s)).
  { intros s. unfold g, stop_display, segment_coord, with_stop_coords. simpl.
    destruct (stop_id (seg_stop s) =? sid); simpl; rewrite ?Hlat, ?Hlng; auto. }
  apply get_segment_details_ext; rewrite !Hsl;
    destruct (segment_slice st L X Y) as [l|]; simpl; try reflexivity; f_equal.
  - rewrite !map_map. apply map_ext. intros s. apply Hpt.
  - apply route_stops_coords_ext. intros s. apply Hpt.
Qed.

(** C10: a stored latitude or longitude equal to zero is handled exactly as
    an absent one: the segment contributes no coordinate pair, the displayed
    coordinate is absent, and the whole get_segment_details result (stop
    list and distance/duration request) is the same as when the value is
    not stored at all. *)
Theorem zero_coordinate_is_absent :
  (forall s, latitude (seg_stop s) = Some 0%Z \/ longitude (seg_stop s) = Some 0%Z ->
             segment_coord s = None) /\
  (forall s, latitude (seg_stop s) = Some 0%Z -> sd_latitude (stop_display s) = None) /\
  (forall s, longitude (seg_stop s) = Some 0%Z -> sd_longitude (stop_display s) = None) /\
  (forall net st sid lng L X Y,
     get_segment_details net (store_with_coords sid (Some 0%Z) lng st) L X Y =
     get_segment_details net (store_with_coords sid None lng st) L X Y) /\
  (forall net st sid lat L X Y,
     get_segment_details net (store_with_coords sid lat (Some 0%Z) st) L X Y =
     get_segment_details net (store_with_coords sid lat None st) L X Y).
Proof.
  split; [|split; [|split; [|split]]].
  - intros s [H|H]; unfold segment_coord; rewrite H; simpl;
      [reflexivity | destruct (decimal_to_float (latitude (seg_stop s))); reflexivity].
  - intros s H. unfold stop_display. simpl. rewrite H. reflexivity.
  - intros s H. unfold stop_display. simpl. rewrite H. reflexivity.
  - intros. apply store_with_coords_congr; reflexivity.
  - intros. apply store_with_coords_congr; reflexivity.
Qed.

Lemma zero_coordinate_is_absent_witness :
  segment_coord (mkRouteSegment line_10
                   (mkBusStop 2 "" "" None None (Some 0%Z) (Some 96200000%Z)) 2) = None /\
  get_segment_details offline_net (store_with_coords 2 (Some 0%Z) (Some 96200000%Z) zero_lat_store)
    line_10 (plain_stop 1) (plain_stop 3) =
  get_segment_details offline_net (store_with_coords 2 None (Some 96200000%Z) zero_lat_store)
    line_10 (plain_stop 1) (plain_stop 3).
Proof.
  destruct zero_coordinate_is_absent as (H1 & _ & _ & H4 & _).
  split.
  - apply H1. left. reflexivity.
  - apply H4.
Defined.

(** ** Direction of the slices *)

Lemma order_le_total a b : order_le a b = false -> order_le b a = true.
Proof. unfold order_le. rewrite Z.leb_gt, Z.leb_le. lia. Qed.

Lemma order_desc_le_total a b : order_desc_le a b = false -> order_desc_le b a = true.
Proof. unfold order_desc_le. rewrite Z.leb_gt, Z.leb_le. lia. Qed.

Lemma sort_asc_strict l :
  NoDup (map seg_order l) ->
  StronglySorted (fun a b => (seg_order a < seg_order b)%Z) (sort_by order_le l).
Proof.
  intros Hn. apply (StronglySorted_strict seg_order (fun a b => order_le a b = true)).
  - intros a b H Hne. unfold order_le in H. apply Z.leb_le in H. lia.
  - apply Sorted_StronglySorted.
    + intros x y z. unfold order_le. rewrite !Z.leb_le. lia.
    + apply sort_by_sorted, order_le_total.
  - apply (NoDup_map_perm seg_order l); [symmetry; apply sort_by_perm | exact Hn].
Qed.

Lemma sort_desc_strict l :
  NoDup (map seg_order l) ->
  StronglySorted (fun a b => (seg_order b < seg_order a)%Z) (sort_by order_desc_le l).
Proof.
  intros Hn. apply (StronglySorted_strict seg_order (fun a b => order_desc_le a b = true)).
  - intros a b H Hne. unfold order_desc_le in H. apply Z.leb_le in H. lia.
  - apply Sorted_StronglySorted.
    + intros x y z. unfold order_desc_le. rewrite !Z.leb_le. lia.
    + apply sort_by_sorted, order_desc_le_total.
  - apply (NoDup_map_perm seg_order l); [symmetry; apply sort_by_perm | exact Hn].
Qed.

(** With distinct orders, [order_by('-order')] is the reverse of
    [order_by('order')]. *)
Lemma sort_desc_rev l :
  NoDup (map seg_order l) -> sort_by order_desc_le l = rev (sort_by order_le l).
Proof.
  intros Hn. apply (StronglySorted_unique (fun a b => (seg_order b < seg_order a)%Z)).
  - intros a b H1 H2. lia.
  - apply sort_desc_strict, Hn.
  - apply (StronglySorted_rev (fun a b => (seg_order a < seg_order b)%Z)).
    apply sort_asc_strict, Hn.
  - apply Permutation_trans with l; [apply sort_by_perm|].
    apply Permutation_trans with (sort_by order_le l);
      [symmetry; apply sort_by_perm | apply Permutation_rev].
Qed.

Lemma rev_const_keys l c :
  NoDup (map seg_order l) -> (forall x, In x l -> seg_order x = c) -> rev l = l.
Proof.
  destruct l as [|x [|y l]]; intros Hn H; [reflexivity | reflexivity|].
  exfalso. simpl in Hn. inversion Hn as [|? ? Hx _]; subst.
  apply Hx. left. rewrite (H x), (H y); simpl; auto.
Qed.

Lemma nodup_line_slice L segs (P Q : RouteSegment -> bool) :
  NoDup (map seg_order (filter (on_line L) segs)) ->
  NoDup (map seg_order (filter (fun s => on_line L s && P s && Q s) segs)).
Proof.
  intros Hn.
  rewrite (filter_ext (fun s => on_line L s && P s && Q s)
                      (fun s => on_line L s && (P s && Q s)))
    by (intros; symmetry; apply andb_assoc).
  rewrite filter_andb. apply NoDup_map_filter, Hn.
Qed.

Lemma route_stops_of_get_segment_details net st L X Y :
  route_stops_of (get_segment_details net st L X Y) =
  match segment_slice st L X Y with
  | Some ((_ :: _) as l) => Some (map stop_display l)
  | _ => None
  end.
Proof.
  unfold get_segment_details.
  destruct (segment_slice st L X Y) as [[|a l]|]; try reflexivity.
  destruct (get_route_details_from_osrm_ret net (route_stops_coords (a :: l)))
    as [[d t] Hr].
  cbv beta iota. rewrite Hr. reflexivity.
Qed.

Lemma segment_slice_reverse st L X Y :
  NoDup (map seg_order (filter (on_line L) (segments st))) ->
  segment_slice st L X Y = option_map (@rev _) (segment_slice st L Y X).
Proof.
  intros Hn. unfold segment_slice.
  destruct (segment_of st L X) as [ss|], (segment_of st L Y) as [es|];
    try reflexivity.
  cbn [option_map].
  pose proof (nodup_line_slice L (segments st)) as HN.
  destruct (Z.leb_spec (seg_order ss) (seg_order es)),
           (Z.leb_spec (seg_order es) (seg_order ss)); try lia;
    cbn [option_map].
  - assert (E : seg_order es = seg_order ss) by lia. rewrite E.
    f_equal. symmetry.
    apply (rev_const_keys _ (seg_order ss)).
    + apply (NoDup_map_perm seg_order _ _ (Permutation_sym (sort_by_perm _ _))).
      apply HN, Hn.
    + intros x Hx. apply (Permutation_in _ (sort_by_perm _ _)), filter_In in Hx.
      destruct Hx as [_ Hx]. apply andb_true_iff in Hx as [Hx Hx2].
      apply andb_true_iff in Hx as [_ Hx1]. apply Z.leb_le in Hx1, Hx2. lia.
  - f_equal. rewrite sort_desc_rev, rev_involutive by (apply HN, Hn).
    f_equal. apply filter_ext. intros u.
    destruct (on_line L u), (seg_order u <=? seg_order es)%Z,
             (seg_order ss <=? seg_order u)%Z; reflexivity.
  - f_equal. rewrite sort_desc_rev by (apply HN, Hn).
    f_equal. f_equal. apply filter_ext. intros u.
    destruct (on_line L u), (seg_order u <=? seg_order ss)%Z,
             (seg_order es <=? seg_order u)%Z; reflexivity.
Qed.

(** C4: with distinct orders on the line (the data-model invariant), the
    sequence extracted for (X, Y) is the reverse of the one for (Y, X),
    both for the queryset and for the returned stop list; and the slice for
    (X, Y) holds exactly the line's segments whose order lies between the
    two stops' orders, increasing when X's order is at most Y's and
    decreasing otherwise. *)
Theorem get_segment_details_reverse net net' st L X Y :
  NoDup (map seg_order (filter (on_line L) (segments st))) ->
  segment_slice st L X Y = option_map (@rev _) (segment_slice st L Y X) /\
  route_stops_of (get_segment_details net st L X Y) =
  option_map (@rev _) (route_stops_of (get_segment_details net' st L Y X)) /\
  (forall ss es segs,
     segment_of st L X = Some ss -> segment_of st L Y = Some es ->
     segment_slice st L X Y = Some segs ->
     (forall s, In s segs <->
        In s (segments st) /\ on_line L s = true /\
        (Z.min (seg_order ss) (seg_order es) <= seg_order s
           <= Z.max (seg_order ss) (seg_order es))%Z) /\
     ((seg_order ss <= seg_order es)%Z ->
        StronglySorted (fun a b => (seg_order a < seg_order b)%Z) segs) /\
     ((seg_order es < seg_order ss)%Z ->
        StronglySorted (fun a b => (seg_order b < seg_order a)%Z) segs)).
Proof.
  intros Hn.
  pose proof (segment_slice_reverse st L X Y Hn) as Hrev.
  split; [exact Hrev|]. split.
  - rewrite !route_stops_of_get_segment_details, Hrev.
    destruct (segment_slice st L Y X) as [l|]; [|reflexivity].
    cbn [option_map]. destruct l as [|a l]; [reflexivity|].
    destruct (rev (a :: l)) as [|b m] eqn:E.
    + apply (f_equal (@List.length _)) in E. rewrite length_rev in E.
      discriminate.
    + rewrite <- E, map_rev. reflexivity.
  - intros ss es segs Hss Hes Hs.
    pose proof (nodup_line_slice L (segments st)) as HN.
    unfold segment_slice in Hs. rewrite Hss, Hes in Hs.
    destruct (Z.leb_spec (seg_order ss) (seg_order es)); injection Hs as <-.
    + split; [|split; [intros _; apply sort_asc_strict, HN, Hn | intros; lia]].
      intros s. split.
      * intros Hx. apply (Permutation_in _ (sort_by_perm _ _)), filter_In in Hx.
        destruct Hx as [Hin Hx]. apply andb_true_iff in Hx as [Hx Hx2].
        apply andb_true_iff in Hx as [Hl Hx1]. apply Z.leb_le in Hx1, Hx2.
        repeat split; auto; lia.
      * intros (Hin & Hl & Hr1 & Hr2).
        apply (Permutation_in _ (Permutation_sym (sort_by_perm _ _))), filter_In.
        split; [exact Hin|]. rewrite Hl, (proj2 (Z.leb_le _ _)), (proj2 (Z.leb_le _ _));
          [reflexivity | lia | lia].
    + split; [|split; [intros; lia | intros _; apply sort_desc_strict, HN, Hn]].
      intros s. split.
      * intros Hx. apply (Permutation_in _ (sort_by_perm _ _)), filter_In in Hx.
        destruct Hx as [Hin Hx]. apply andb_true_iff in Hx as [Hx Hx2].
        apply andb_true_iff in Hx as [Hl Hx1]. apply Z.leb_le in Hx1, Hx2.
        repeat split; auto; lia.
      * intros (Hin & Hl & Hr1 & Hr2).
        apply (Permutation_in _ (Permutation_sym (sort_by_perm _ _))), filter_In.
        split; [exact Hin|]. rewrite Hl, (proj2 (Z.leb_le _ _)), (proj2 (Z.leb_le _ _));
          [reflexivity | lia | lia].
Qed.

Lemma get_segment_details_reverse_witness :
  NoDup (map seg_order (filter (on_line line_10) (segments one_line_store))) /\
  segment_slice one_line_store line_10 (plain_stop 1) (plain_stop 3) =
  option_map (@rev _) (segment_slice one_line_store line_10 (plain_stop 3) (plain_stop 1)).
Proof.
  assert (Hn : NoDup (map seg_order (filter (on_line line_10) (segments one_line_store)))).
  { simpl. repeat constructor; simpl; intuition discriminate. }
  split; [exact Hn|].
  exact (proj1 (get_segment_details_reverse offline_net offline_net one_line_store
                  line_10 (plain_stop 1) (plain_stop 3) Hn)).
Defined.

(** ** The stops-between listing *)

Lemma positions_from_fst_none X Y i l sp ep :
  (forall s, In s l -> at_stop X s = false) ->
  fst (positions_from X Y i l sp ep) = sp.
Proof.
  revert i sp ep. induction l as [|s l IH]; intros i sp ep H; simpl; [reflexivity|].
  rewrite IH by (intros; apply H; right; assumption).
  rewrite H by (left; reflexivity). reflexivity.
Qed.

Lemma positions_from_snd_none X Y i l sp ep :
  (forall s, In s l -> at_stop Y s = false) ->
  snd (positions_from X Y i l sp ep) = ep.
Proof.
  revert i sp ep. induction l as [|s l IH]; intros i sp ep H; simpl; [reflexivity|].
  rewrite IH by (intros; apply H; right; assumption).
  rewrite H by (left; reflexivity). reflexivity.
Qed.

(** [enumerate] keeps the index of the last matching segment. *)
Lemma positions_from_fst X Y pre x post i sp ep :
  at_stop X x = true -> (forall s, In s post -> at_stop X s = false) ->
  fst (positions_from X Y i (pre ++ x :: post) sp ep) = Some (i + List.length pre).
Proof.
  revert i sp ep. induction pre as [|s pre IH]; intros i sp ep Hx Hpost; simpl.
  - rewrite positions_from_fst_none by exact Hpost. rewrite Hx. f_equal. lia.
  - rewrite IH by assumption. f_equal. lia.
Qed.

Lemma positions_from_snd X Y pre x post i sp ep :
  at_stop Y x = true -> (forall s, In s post -> at_stop Y s = false) ->
  snd (positions_from X Y i (pre ++ x :: post) sp ep) = Some (i + List.length pre).
Proof.
  revert i sp ep. induction pre as [|s pre IH]; intros i sp ep Hx Hpost; simpl.
  - rewrite positions_from_snd_none by exact Hpost. rewrite Hx. f_equal. lia.
  - rewrite IH by assumption. f_equal. lia.
Qed.

Lemma filter_le1_unique {A} (f : A -> bool) l x :
  List.length (filter f l) <= 1 -> In x l -> f x = true -> filter f l = [x].
Proof.
  intros Hl Hx Hf. assert (Hin : In x (filter f l)) by (apply filter_In; auto).
  destruct (filter f l) as [|a [|b r]]; simpl in *; [contradiction| |lia].
  destruct Hin as [->|[]]. reflexivity.
Qed.

Lemma filter_le1_others {A} (f : A -> bool) pre x post :
  List.length (filter f (pre ++ x :: post)) <= 1 -> f x = true ->
  forall y, In y (pre ++ post) -> f y = false.
Proof.
  intros Hl Hx y Hy. destruct (f y) eqn:Fy; [exfalso|reflexivity].
  rewrite filter_app in Hl. simpl in Hl. rewrite Hx, length_app in Hl. simpl in Hl.
  apply in_app_or in Hy as [Hy|Hy].
  - assert (Hin : In y (filter f pre)) by (apply filter_In; auto).
    destruct (filter f pre); simpl in *; [contradiction|lia].
  - assert (Hin : In y (filter f post)) by (apply filter_In; auto).
    destruct (filter f post); simpl in *; [contradiction|lia].
Qed.

Lemma StronglySorted_head_lt x l s :
  StronglySorted (fun a b => (seg_order a < seg_order b)%Z) (x :: l) -> In s l ->
  (seg_order x < seg_order s)%Z.
Proof.
  intros H Hs. apply StronglySorted_inv in H as [_ H].
  rewrite Forall_forall in H. auto.
Qed.

(** A Python slice [l[lo:hi+1]] of a list sorted by strictly increasing
    order is the sublist of orders between those at [lo] and [hi]. *)
Lemma slice_as_filter (l : list RouteSegment) d : forall lo hi,
  StronglySorted (fun a b => (seg_order a < seg_order b)%Z) l ->
  lo <= hi -> hi < List.length l ->
  firstn (hi + 1 - lo) (skipn lo l) =
  filter (fun s => (seg_order (nth lo l d) <=? seg_order s)%Z
                   && (seg_order s <=? seg_order (nth hi l d))%Z) l.
Proof.
  induction l as [|x l IH]; intros lo hi Hs Hlh Hh; simpl in Hh; [lia|].
  pose proof Hs as Hs'. apply StronglySorted_inv in Hs' as [Hl _].
  destruct lo as [|lo].
  - change (nth 0 (x :: l) d) with x. simpl skipn.
    destruct hi as [|hi].
    + change (nth 0 (x :: l) d) with x. simpl. rewrite Z.leb_refl. simpl. f_equal. symmetry.
      transitivity (filter (fun _ => false) l); [apply filter_ext_in|].
      * intros s Hin. pose proof (StronglySorted_head_lt x l s Hs Hin).
        rewrite (proj2 (Z.leb_gt (seg_order s) (seg_order x))) by lia.
        apply andb_false_r.
      * generalize l. clear. intros l0. induction l0; simpl; auto.
    + replace (S hi + 1 - 0) with (S (hi + 1 - 0)) by lia. simpl firstn.
      simpl nth.
      assert (Hxh : (seg_order x <= seg_order (nth hi l d))%Z).
      { destruct l as [|y l]; simpl in Hh; [lia|].
        assert (Hi : hi < List.length (y :: l)) by (simpl; lia).
        pose proof (StronglySorted_head_lt x (y :: l) (nth hi (y :: l) d) Hs
                      (nth_In (y :: l) d Hi)). lia. }
      simpl filter. rewrite Z.leb_refl, (proj2 (Z.leb_le _ _) Hxh). simpl. f_equal.
      rewrite <- (skipn_O l) at 1.
      rewrite (IH 0 hi Hl ltac:(lia) ltac:(lia)).
      apply filter_ext_in. intros s Hin.
      pose proof (StronglySorted_head_lt x l s Hs Hin).
      destruct l as [|y l]; [contradiction|]. simpl nth at 1.
      assert (Hys : (seg_order y <= seg_order s)%Z).
      { destruct Hin as [->|Hin]; [lia|].
        pose proof (StronglySorted_head_lt y l s Hl Hin). lia. }
      rewrite (proj2 (Z.leb_le _ _) Hys), (proj2 (Z.leb_le (seg_order x) _)) by lia.
      reflexivity.
  - destruct hi as [|hi]; [lia|].
    replace (S hi + 1 - S lo) with (hi + 1 - lo) by lia. simpl skipn. simpl nth.
    rewrite (IH lo hi Hl ltac:(lia) ltac:(lia)). simpl filter.
    destruct l as [|y l]; simpl in Hh; [lia|].
    assert (Hi : lo < List.length (y :: l)) by (simpl; lia).
    pose proof (StronglySorted_head_lt x (y :: l) (nth lo (y :: l) d) Hs
                  (nth_In (y :: l) d Hi)).
    rewrite (proj2 (Z.leb_gt _ _)) by lia. reflexivity.
Qed.

(** The line's sorted segments filtered by a predicate are the sorted
    filter of the store. *)
Lemma line_sorted_filter st L (P : RouteSegment -> bool) :
  NoDup (map seg_order (filter (on_line L) (segments st))) ->
  sort_by order_le (filter (fun s => on_line L s && P s) (segments st)) =
  filter P (sort_by order_le (filter (on_line L) (segments st))).
Proof.
  intros Hn.
  apply (StronglySorted_unique (fun a b => (seg_order a < seg_order b)%Z)).
  - intros a b H1 H2. lia.
  - apply sort_asc_strict. rewrite filter_andb. apply NoDup_map_filter, Hn.
  - apply StronglySorted_filter, sort_asc_strict, Hn.
  - apply Permutation_trans with (filter (fun s => on_line L s && P s) (segments st));
      [apply sort_by_perm|].
    rewrite filter_andb. apply Permutation_filter'. symmetry. apply sort_by_perm.
Qed.

Lemma stops_between_on_line_line st X Y L e :
  stops_between_on_line st X Y L = Some e -> be_line e = L.
Proof.
  unfold stops_between_on_line.
  destruct (positions_from _ _ _ _ _ _) as [[p|] [q|]]; try discriminate.
  destruct (q <? p); intros H; injection H as <-; reflexivity.
Qed.

Lemma in_find_stops_between st X Y e :
  In e (find_stops_between st X Y) ->
  In (be_line e) (common_bus_lines st X Y) /\
  stops_between_on_line st X Y (be_line e) = Some e.
Proof.
  unfold find_stops_between. intros H. apply in_flat_map in H as (L & HL & He).
  destruct (stops_between_on_line st X Y L) as [e'|] eqn:E; [|contradiction].
  destruct He as [<-|[]].
  rewrite (stops_between_on_line_line st X Y L e' E). auto.
Qed.

(** C5 (as amended): for each line reported by the stops-between listing,
    when orders on the line are distinct and each of the two stops has a
    single segment on it, the reported stops are the extractor's inclusive
    slice for (start, end) when start's order is at most end's, and the
    reverse of that slice otherwise: the listing always runs in increasing
    order, whatever the direction of travel. *)
Theorem find_stops_between_ascending st X Y e :
  In e (find_stops_between st X Y) ->
  NoDup (map seg_order (filter (on_line (be_line e)) (segments st))) ->
  List.length (filter (fun s => on_line (be_line e) s && at_stop X s) (segments st)) <= 1 ->
  List.length (filter (fun s => on_line (be_line e) s && at_stop Y s) (segments st)) <= 1 ->
  exists ss es segs,
    segment_of st (be_line e) X = Some ss /\
    segment_of st (be_line e) Y = Some es /\
    segment_slice st (be_line e) X Y = Some segs /\
    be_stops e = map seg_stop (if (seg_order ss <=? seg_order es)%Z then segs else rev segs).
Proof.
  intros Hin Hn Hcx Hcy.
  destruct (in_find_stops_between _ _ _ _ Hin) as [HL Hsb].
  revert Hn Hcx Hcy HL Hsb. generalize (be_line e) as L. intros L Hn Hcx Hcy HL Hsb.
  unfold common_bus_lines in HL. apply filter_In in HL as [_ HL].
  apply andb_true_iff in HL as [HX HY].
  apply existsb_exists in HX as (sx & Hsx & Hfx).
  apply existsb_exists in HY as (sy & Hsy & Hfy).
  assert (HsoX : segment_of st L X = Some sx).
  { unfold segment_of. rewrite (filter_le1_unique _ _ sx Hcx Hsx Hfx). reflexivity. }
  assert (HsoY : segment_of st L Y = Some sy).
  { unfold segment_of. rewrite (filter_le1_unique _ _ sy Hcy Hsy Hfy). reflexivity. }
  apply andb_true_iff in Hfx as [HlX HaX]. apply andb_true_iff in Hfy as [HlY HaY].
  unfold stops_between_on_line in Hsb. cbv zeta in Hsb.
  set (RS := sort_by order_le (filter (on_line L) (segments st))) in *.
  assert (HRS : StronglySorted (fun a b => (seg_order a < seg_order b)%Z) RS)
    by (apply sort_asc_strict, Hn).
  assert (HinRS : forall s, In s (segments st) -> on_line L s = true -> In s RS).
  { intros s H1 H2. apply (Permutation_in _ (Permutation_sym (sort_by_perm _ _))).
    apply filter_In. auto. }
  assert (Hcnt : forall Z, List.length (filter (fun s => on_line L s && at_stop Z s)
                                               (segments st)) <= 1 ->
                           List.length (filter (at_stop Z) RS) <= 1).
  { intros Z HZ. unfold RS.
    rewrite (Permutation_length (Permutation_filter' (at_stop Z) _ _ (sort_by_perm order_le _))).
    rewrite <- filter_andb. exact HZ. }
  destruct (in_split sx RS (HinRS sx Hsx HlX)) as (preX & postX & EX).
  destruct (in_split sy RS (HinRS sy Hsy HlY)) as (preY & postY & EY).
  assert (Hp : fst (positions_from X Y 0 RS None None) = Some (List.length preX)).
  { rewrite EX. apply positions_from_fst; [exact HaX|].
    intros s Hs. apply (filter_le1_others (at_stop X) preX sx postX);
      [rewrite <- EX; apply Hcnt, Hcx | exact HaX | apply in_or_app; right; exact Hs]. }
  assert (Hq : snd (positions_from X Y 0 RS None None) = Some (List.length preY)).
  { rewrite EY. apply positions_from_snd; [exact HaY|].
    intros s Hs. apply (filter_le1_others (at_stop Y) preY sy postY);
      [rewrite <- EY; apply Hcnt, Hcy | exact HaY | apply in_or_app; right; exact Hs]. }
  destruct (positions_from X Y 0 RS None None) as [sp ep].
  simpl in Hp, Hq. subst sp ep.
  set (p := List.length preX) in *. set (q := List.length preY) in *.
  assert (Nx : nth p RS sx = sx) by (rewrite EX; apply nth_middle).
  assert (Ny : nth q RS sx = sy) by (rewrite EY; apply nth_middle).
  assert (Hpl : p < List.length RS) by (rewrite EX, length_app; simpl; unfold p; lia).
  assert (Hql : q < List.length RS) by (rewrite EY, length_app; simpl; unfold q; lia).
  pose proof (StronglySorted_nth_lt seg_order RS sx HRS) as Hmono.
  exists sx, sy. unfold segment_slice. rewrite HsoX, HsoY.
  destruct (q <? p) eqn:Hlt.
  - apply Nat.ltb_lt in Hlt.
    assert (Hc : (seg_order sy < seg_order sx)%Z).
    { rewrite <- Nx, <- Ny. apply Hmono; assumption. }
    rewrite (proj2 (Z.leb_gt _ _) Hc).
    eexists. split; [reflexivity|]. split; [reflexivity|]. split; [reflexivity|].
    injection Hsb as <-. simpl be_stops. f_equal.
    rewrite sort_desc_rev by (apply nodup_line_slice, Hn).
    rewrite rev_involutive.
    rewrite (filter_ext (fun s => on_line L s && (seg_order s <=? seg_order sx)%Z
                                  && (seg_order sy <=? seg_order s)%Z)
                        (fun s => on_line L s && ((seg_order sy <=? seg_order s)%Z
                                  && (seg_order s <=? seg_order sx)%Z)))
      by (intros u; destruct (on_line L u), (seg_order u <=? seg_order sx)%Z,
                       (seg_order sy <=? seg_order u)%Z; reflexivity).
    rewrite line_sorted_filter by exact Hn. fold RS.
    rewrite (slice_as_filter RS sx q p HRS ltac:(lia) Hpl), Nx, Ny. reflexivity.
  - apply Nat.ltb_ge in Hlt.
    assert (Hc : (seg_order sx <= seg_order sy)%Z).
    { rewrite <- Nx, <- Ny. destruct (Nat.eq_dec p q) as [->|Hne]; [lia|].
      apply Z.lt_le_incl, Hmono; lia. }
    rewrite (proj2 (Z.leb_le _ _) Hc).
    eexists. split; [reflexivity|]. split; [reflexivity|]. split; [reflexivity|].
    injection Hsb as <-. simpl be_stops. f_equal.
    rewrite (filter_ext (fun s => on_line L s && (seg_order sx <=? seg_order s)%Z
                                  && (seg_order s <=? seg_order sy)%Z)
                        (fun s => on_line L s && ((seg_order sx <=? seg_order s)%Z
                                  && (seg_order s <=? seg_order sy)%Z)))
      by (intros u; symmetry; apply andb_assoc).
    rewrite line_sorted_filter by exact Hn. fold RS.
    rewrite (slice_as_filter RS sx p q HRS Hlt Hql), Nx, Ny. reflexivity.
Qed.

Lemma find_stops_between_ascending_witness :
  In (mkBetweenEntry line_10 [plain_stop 1; plain_stop 2; plain_stop 3] 3 [1; 2; 3]%Z)
     (find_stops_between one_line_store (plain_stop 3) (plain_stop 1)) /\
  exists ss es segs,
    segment_of one_line_store line_10 (plain_stop 3) = Some ss /\
    segment_of one_line_store line_10 (plain_stop 1) = Some es /\
    segment_slice one_line_store line_10 (plain_stop 3) (plain_stop 1) = Some segs /\
    [plain_stop 1; plain_stop 2; plain_stop 3] =
    map seg_stop (if (seg_order ss <=? seg_order es)%Z then segs else rev segs).
Proof.
  assert (Hin : In (mkBetweenEntry line_10 [plain_stop 1; plain_stop 2; plain_stop 3] 3
                      [1; 2; 3]%Z)
                   (find_stops_between one_line_store (plain_stop 3) (plain_stop 1)))
    by (left; reflexivity).
  split; [exact Hin|].
  apply (find_stops_between_ascending one_line_store (plain_stop 3) (plain_stop 1) _ Hin).
  - simpl. repeat constructor; simpl; intuition discriminate.
  - simpl. lia.
  - simpl. lia.
Defined.

(** C5, the spec's statement: for stops 3 then 1 on a line running
    1 -> 2 -> 3, the listing gives 1, 2, 3 while the extractor's slice for
    the same pair runs 3, 2, 1. *)
Lemma find_stops_between_direction_counterexample :
  map (fun e => map stop_id (be_stops e))
      (find_stops_between one_line_store (plain_stop 3) (plain_stop 1)) = [[1; 2; 3]] /\
  option_map (map (fun s => stop_id (seg_stop s)))
      (segment_slice one_line_store line_10 (plain_stop 3) (plain_stop 1)) = Some [3; 2; 1].
Proof. split; vm_compute; reflexivity. Qed.

(* ------------------------------------------------------------------ *)
(** ** The derived graph *)

Lemma dict_get_list_append {V} (d : dict (list V)) k v k' :
  dict_get_list (dict_append d k v) k' =
  dict_get_list d k' ++ (if k' =? k then [v] else []).
Proof.
  unfold dict_get_list. induction d as [|[k0 vs] r IH]; simpl.
  - destruct (k' =? k); reflexivity.
  - destruct (k =? k0) eqn:E; simpl.
    + apply Nat.eqb_eq in E; subst k0.
      destruct (k' =? k); [reflexivity | now rewrite app_nil_r].
    + destruct (k' =? k0) eqn:E'; [|exact IH].
      apply Nat.eqb_eq in E'; subst k0.
      destruct (k' =? k) eqn:E2; [|now rewrite app_nil_r].
      apply Nat.eqb_eq in E2; subst k'. rewrite Nat.eqb_refl in E. discriminate.
Qed.

Lemma In_if_single {A} (b : bool) (v e : A) :
  In e (if b then [v] else []) <-> b = true /\ e = v.
Proof.
  destruct b; simpl; split; intuition congruence.
Qed.

Lemma add_line_edges_In g lid segs x e :
  In e (dict_get_list (add_line_edges g lid segs) x) <->
  In e (dict_get_list g x) \/
  exists p, In p (adjacent_pairs (sort_by order_le segs)) /\ pair_edge lid p x e.
Proof.
  unfold add_line_edges. generalize (adjacent_pairs (sort_by order_le segs)) as ps.
  intros ps. revert g. induction ps as [|[sa sb] r IH]; intros g; simpl.
  - split; [auto|]. intros [H|(p & [] & _)]. exact H.
  - rewrite IH, !dict_get_list_append, !in_app_iff, !In_if_single, !Nat.eqb_eq.
    split.
    + intros [[[H|[Ha He]]|[Hb He]]|(p & Hp & Hpe)].
      * left; exact H.
      * right. exists (sa, sb). split; [left; reflexivity|].
        subst e. unfold pair_edge; simpl; auto.
      * right. exists (sa, sb). split; [left; reflexivity|].
        subst e. unfold pair_edge; simpl; auto.
      * right. exists p; auto.
    + intros [H|(p & [<-|Hp] & Hpe)].
      * left; left; left; exact H.
      * destruct e as [y l n]. unfold pair_edge in Hpe; simpl in Hpe.
        destruct Hpe as [-> [-> [[Hx ->]|[Hx ->]]]].
        -- left; left; right; auto.
        -- left; right; auto.
      * right; exists p; auto.
Qed.

Lemma fold_add_line_edges_In groups g x e :
  In e (dict_get_list
          (fold_left (fun g '(lid, segs) => add_line_edges g lid segs) groups g) x) <->
  In e (dict_get_list g x) \/
  exists lid segs p, In (lid, segs) groups /\
    In p (adjacent_pairs (sort_by order_le segs)) /\ pair_edge lid p x e.
Proof.
  revert g. induction groups as [|[lid segs] r IH]; intros g; simpl.
  - split; [auto|]. intros [H|(? & ? & ? & [] & _)]. exact H.
  - rewrite IH, add_line_edges_In. split.
    + intros [[H|(p & Hp & Hpe)]|(lid' & segs' & p & Hg & Hp & Hpe)].
      * left; exact H.
      * right. exists lid, segs, p. auto.
      * right. exists lid', segs', p. auto.
    + intros [H|(lid' & segs' & p & [Hg|Hg] & Hp & Hpe)].
      * left; left; exact H.
      * injection Hg as <- <-. left; right. exists p; auto.
      * right. exists lid', segs', p. auto.
Qed.

(** An edge of [build_graph] comes from a pair of consecutive segments of
    one line's group. *)
Lemma build_graph_In all x e :
  In e (dict_get_list (build_graph all) x) <->
  exists lid segs p, In (lid, segs) (segments_by_line (sort_by meta_le all)) /\
    In p (adjacent_pairs (sort_by order_le segs)) /\ pair_edge lid p x e.
Proof.
  unfold build_graph. rewrite fold_add_line_edges_In. simpl.
  split; [intros [[]|H]; exact H | intros H; right; exact H].
Qed.

Lemma adjacent_pairs_In {A} (l : list A) a b :
  In (a, b) (adjacent_pairs l) -> In a l /\ In b l.
Proof.
  induction l as [|x l IH]; simpl; [intros []|].
  destruct l as [|y l]; [intros []|].
  intros [H|H].
  - injection H as <- <-. simpl; auto.
  - destruct (IH H) as [Ha Hb]. auto.
Qed.

Lemma dict_append_entries {V} (Q : nat -> V -> Prop) (d : dict (list V)) k0 v :
  (forall k grp s, In (k, grp) d -> In s grp -> Q k s) -> Q k0 v ->
  forall k grp s, In (k, grp) (dict_append d k0 v) -> In s grp -> Q k s.
Proof.
  induction d as [|[k1 vs] r IH]; simpl; intros Hd Hv k grp s Hin Hs.
  - destruct Hin as [Hin|[]]. injection Hin as <- <-. destruct Hs as [<-|[]]. exact Hv.
  - destruct (k0 =? k1) eqn:E; simpl in Hin.
    + apply Nat.eqb_eq in E; subst k1.
      destruct Hin as [Hin|Hin].
      * injection Hin as <- <-. apply in_app_or in Hs as [Hs|[<-|[]]]; [|exact Hv].
        eapply Hd; [left; reflexivity | exact Hs].
      * eapply Hd; [right; exact Hin | exact Hs].
    + destruct Hin as [Hin|Hin].
      * injection Hin as <- <-. eapply Hd; [left; reflexivity | exact Hs].
      * eapply IH; [| exact Hv | exact Hin | exact Hs].
        intros k' grp' s' H1 H2. eapply Hd; [right; exact H1 | exact H2].
Qed.

(** Each group of [segments_by_line] holds rows of its own line. *)
Lemma segments_by_line_entries l k grp s :
  In (k, grp) (segments_by_line l) -> In s grp -> In s l /\ line_id (seg_line s) = k.
Proof.
  unfold segments_by_line.
  assert (H : forall d l',
    (forall k grp s, In (k, grp) d -> In s grp -> In s l /\ line_id (seg_line s) = k) ->
    (forall s, In s l' -> In s l) ->
    forall k grp s,
      In (k, grp) (fold_left (fun m s => dict_append m (line_id (seg_line s)) s) l' d) ->
      In s grp -> In s l /\ line_id (seg_line s) = k).
  { intros d l'. revert d. induction l' as [|y l' IH]; simpl; intros d Hd Hl.
    - exact Hd.
    - apply IH; [|intros; apply Hl; auto].
      apply (dict_append_entries (fun k s => In s l /\ line_id (seg_line s) = k));
        [exact Hd|]. split; [apply Hl; left|]; reflexivity. }
  apply (H [] l); [intros ? ? ? []|auto].
Qed.

(** The full description of an edge of the derived graph. *)
Lemma build_graph_edge_segments all x y l n :
  In (mkEdge y l n) (dict_get_list (build_graph all) x) ->
  exists sa sb, In sa all /\ In sb all /\
    line_id (seg_line sa) = l /\ line_id (seg_line sb) = l /\
    stop_id (seg_stop sa) = x /\ stop_id (seg_stop sb) = y /\
    (n = line_number (seg_line sa) \/ n = line_number (seg_line sb)).
Proof.
  rewrite build_graph_In. intros (lid & segs & [a b] & Hg & Hp & Hpe).
  destruct Hpe as [Hl [Hn Hxy]]; simpl in Hl, Hn, Hxy.
  apply adjacent_pairs_In in Hp as [Ha Hb].
  apply (Permutation_in _ (sort_by_perm order_le segs)) in Ha, Hb.
  destruct (segments_by_line_entries _ _ _ _ Hg Ha) as [Ha' Hla].
  destruct (segments_by_line_entries _ _ _ _ Hg Hb) as [Hb' Hlb].
  apply (Permutation_in _ (sort_by_perm meta_le all)) in Ha', Hb'.
  destruct Hxy as [[Hx Hy]|[Hx Hy]].
  - exists a, b. subst. auto 10.
  - exists b, a. subst. auto 10.
Qed.

(** X1: the derived graph is symmetric: [y] is listed as a neighbour of
    [x] with a line and line number exactly when [x] is listed as a
    neighbour of [y] with the same line and number. *)
Theorem build_graph_symmetric all x y l n :
  In (mkEdge y l n) (dict_get_list (build_graph all) x) <->
  In (mkEdge x l n) (dict_get_list (build_graph all) y).
Proof.
  rewrite !build_graph_In.
  split; intros (lid & segs & p & Hg & Hp & [Hl [Hn Hxy]]); exists lid, segs, p;
    (split; [exact Hg|]); (split; [exact Hp|]); unfold pair_edge; simpl in *;
    (split; [exact Hl|]); (split; [exact Hn|]); intuition.
Qed.

(** X2: every edge of the derived graph joins two stops that both have a
    segment on the edge's line, and carries the line number of one of
    those segments. *)
Theorem build_graph_edges_on_line all x y l n :
  In (mkEdge y l n) (dict_get_list (build_graph all) x) ->
  exists sa sb, In sa all /\ In sb all /\
    line_id (seg_line sa) = l /\ line_id (seg_line sb) = l /\
    stop_id (seg_stop sa) = x /\ stop_id (seg_stop sb) = y /\
    (n = line_number (seg_line sa) \/ n = line_number (seg_line sb)).
Proof.
  apply build_graph_edge_segments.
Qed.

Lemma build_graph_edges_on_line_witness :
  In (mkEdge 2 1 10) (dict_get_list (build_graph (segments two_line_store)) 1) /\
  exists sa sb, In sa (segments two_line_store) /\ In sb (segments two_line_store) /\
    line_id (seg_line sa) = 1 /\ line_id (seg_line sb) = 1 /\
    stop_id (seg_stop sa) = 1 /\ stop_id (seg_stop sb) = 2 /\
    (10%Z = line_number (seg_line sa) \/ 10%Z = line_number (seg_line sb)).
Proof.
  assert (H : In (mkEdge 2 1 10) (dict_get_list (build_graph (segments two_line_store)) 1))
    by (vm_compute; intuition).
  split; [exact H|]. apply (build_graph_edges_on_line _ 1 2 1 10 H).
Defined.

(* ------------------------------------------------------------------ *)
(** ** Predecessors and the legs of a returned path *)

Lemma dict_get_set {V} (d : dict V) k v k' :
  dict_get (dict_set d k v) k' = if k' =? k then Some v else dict_get d k'.
Proof.
  induction d as [|[k0 v0] r IH]; simpl; [reflexivity|].
  destruct (k =? k0) eqn:E; simpl.
  - apply Nat.eqb_eq in E; subst k0. destruct (k' =? k); reflexivity.
  - rewrite IH. destruct (k' =? k0) eqn:E'; [|reflexivity].
    apply Nat.eqb_eq in E'; subst k0. rewrite Nat.eqb_sym, E. reflexivity.
Qed.

Section Predecessors.
Variable graph : Graph.

(** Every recorded predecessor is joined to its stop by an edge of the
    graph on the recorded line. *)
Definition preds_ok (preds : dict (option (nat * nat))) : Prop :=
  forall k p l, dict_get preds k = Some (Some (p, l)) ->
  exists n, In (mkEdge k l n) (dict_get_list graph p).

Lemma relax_preds cost cur cl s nb s' :
  relax cost cur cl s nb = Ret s' -> In nb (dict_get_list graph cur) ->
  preds_ok (predecessors s) -> preds_ok (predecessors s').
Proof.
  unfold relax, dict_index. intros H Hnb Hp.
  destruct (dict_get (distances s) (e_stop_id nb)) as [d|]; simpl in H; [|discriminate].
  match type of H with context [if ?c then _ else _] => destruct c end;
    injection H as <-; [|exact Hp].
  intros k p l. simpl. rewrite dict_get_set.
  destruct (k =? e_stop_id nb) eqn:E; [|apply Hp].
  intros Hk. injection Hk as <- <-. apply Nat.eqb_eq in E; subst k.
  exists (e_line_number nb). destruct nb; exact Hnb.
Qed.

Lemma relax_all_preds cost cur cl neighbors : forall s s',
  relax_all cost cur cl s neighbors = Ret s' ->
  (forall nb, In nb neighbors -> In nb (dict_get_list graph cur)) ->
  preds_ok (predecessors s) -> preds_ok (predecessors s').
Proof.
  induction neighbors as [|nb r IH]; simpl; intros s s' H Hn Hp.
  - injection H as <-. exact Hp.
  - destruct (relax cost cur cl s nb) as [s1| |] eqn:E; simpl in H; try discriminate.
    eapply IH; [exact H | intros; apply Hn; auto|].
    eapply relax_preds; [exact E | apply Hn; left; reflexivity | exact Hp].
Qed.

Lemma search_loop_preds fuel end_stop_id : forall s b s',
  search_loop fuel graph end_stop_id s = Ret (b, s') ->
  preds_ok (predecessors s) -> preds_ok (predecessors s').
Proof.
  induction fuel as [|fuel IH]; simpl; intros s b s' H Hp; [discriminate|].
  destruct (heappop (priority_queue s)) as [[[[cost cur] cl] rest]|].
  - unfold dict_index in H. simpl in H.
    destruct (dict_get (distances s) cur) as [d|]; simpl in H; [|discriminate].
    destruct (ext_lt d (Fin cost)); [eapply IH; [exact H | exact Hp]|].
    destruct (cur =? end_stop_id); [injection H as _ <-; exact Hp|].
    destruct (relax_all cost cur cl (mkSearchState (distances s) (predecessors s) rest)
                (dict_get_list graph cur)) as [s1| |] eqn:E; simpl in H; try discriminate.
    eapply IH; [exact H|].
    eapply relax_all_preds; [exact E | auto | exact Hp].
  - injection H as _ <-. exact Hp.
Qed.

End Predecessors.

Lemma initial_state_preds graph all_stops start_stop_id :
  preds_ok graph (predecessors (initial_state all_stops start_stop_id)).
Proof.
  intros k p l. simpl. induction all_stops as [|b r IH]; simpl; [discriminate|].
  destruct (k =? stop_id b); [discriminate | exact IH].
Qed.

(** Reconstruction keeps legs whose line serves both of their ends, with
    the number of that line. *)
Lemma reconstruct_legs_serve (Srv : nat -> nat -> Prop) fuel all_lines preds s :
  (forall k p l, dict_get preds k = Some (Some (p, l)) -> Srv l p /\ Srv l k) ->
  forall cur path p,
  reconstruct fuel all_lines preds s cur path = Ret p ->
  (forall leg, In leg path ->
     Srv (leg_line_id leg) (leg_start_stop_id leg) /\
     Srv (leg_line_id leg) (leg_end_stop_id leg) /\
     leg_line_number leg = line_number_of all_lines (leg_line_id leg)) ->
  forall leg, In leg p ->
     Srv (leg_line_id leg) (leg_start_stop_id leg) /\
     Srv (leg_line_id leg) (leg_end_stop_id leg) /\
     leg_line_number leg = line_number_of all_lines (leg_line_id leg).
Proof.
  intros Hp. induction fuel as [|fuel IH]; intros cur path p H Hpath; simpl in H;
    [discriminate|].
  destruct (cur =? s); [injection H as <-; exact Hpath|].
  destruct (dict_get preds cur) as [[[prev pl]|]|] eqn:E; [| discriminate |].
  - destruct (Hp _ _ _ E) as [Hprev Hcur].
    eapply IH; [exact H|]. intros leg Hleg.
    destruct path as [|last r].
    + destruct Hleg as [<-|[]]. simpl. auto.
    + destruct (leg_line_id last =? pl) eqn:El.
      * apply Nat.eqb_eq in El.
        destruct Hleg as [<-|Hleg]; [|apply Hpath; right; exact Hleg].
        simpl. destruct (Hpath last (or_introl eq_refl)) as (_ & He & Hn).
        rewrite El in *. auto.
      * destruct Hleg as [<-|Hleg]; [simpl; auto | apply Hpath, Hleg].
  - injection H as <-. intros _ [].
Qed.

(** Both ends of a graph edge are served by its line. *)
Lemma build_graph_edge_serves st x y l n :
  In (mkEdge y l n) (dict_get_list (build_graph (segments st)) x) ->
  serves st l x = true /\ serves st l y = true.
Proof.
  intros H. destruct (build_graph_edge_segments _ _ _ _ _ H)
    as (sa & sb & Ha & Hb & Hla & Hlb & Hxa & Hyb & _).
  unfold serves. split; apply existsb_exists.
  - exists sa. rewrite Hla, Hxa, !Nat.eqb_refl. auto.
  - exists sb. rewrite Hlb, Hyb, !Nat.eqb_refl. auto.
Qed.

(** X3: every leg of a path returned by find_shortest_path rides a line
    that has a segment at the leg's start stop and one at its end stop,
    and the leg carries that line's number. *)
Theorem find_shortest_path_legs_on_line fuel st start_stop_id end_stop_id p leg :
  find_shortest_path fuel st start_stop_id end_stop_id = Ret p -> In leg p ->
  serves st (leg_line_id leg) (leg_start_stop_id leg) = true /\
  serves st (leg_line_id leg) (leg_end_stop_id leg) = true /\
  leg_line_number leg = line_number_of (lines st) (leg_line_id leg).
Proof.
  unfold find_shortest_path. intros H Hleg.
  destruct (start_stop_id =? end_stop_id); [injection H as <-; destruct Hleg|].
  destruct (search_loop fuel _ _ _) as [[found s]| |] eqn:E; simpl in H; try discriminate.
  destruct found; simpl in H; [|injection H as <-; destruct Hleg].
  pose proof (search_loop_preds _ _ _ _ _ _ E (initial_state_preds _ _ _)) as Hp.
  refine (reconstruct_legs_serve (fun l a => serves st l a = true) _ _ _ _ _ _ _ _ H _ _ Hleg).
  - intros k q l Hk. destruct (Hp k q l Hk) as [n Hn].
    destruct (build_graph_edge_serves _ _ _ _ _ Hn). auto.
  - intros ? [].
Qed.

Lemma find_shortest_path_legs_on_line_witness :
  exists p leg, (find_shortest_path 100 two_line_store 1 3 = Ret p /\ In leg p) /\
  (serves two_line_store (leg_line_id leg) (leg_start_stop_id leg) = true /\
   serves two_line_store (leg_line_id leg) (leg_end_stop_id leg) = true /\
   leg_line_number leg = line_number_of (lines two_line_store) (leg_line_id leg)).
Proof.
  eexists. eexists.
  assert (H : find_shortest_path 100 two_line_store 1 3 = Ret [mkLeg 1 2 1 (Some 10%Z); mkLeg 2 3 2 (Some 20%Z)])
    by (vm_compute; reflexivity).
  split; [split; [exact H | left; reflexivity]|].
  apply (find_shortest_path_legs_on_line 100 two_line_store 1 3 _ _ H). left; reflexivity.
Defined.

(* ------------------------------------------------------------------ *)
(** ** The transfer count of a route *)

Lemma find_shortest_path_no_adjacent fuel st a b p :
  find_shortest_path fuel st a b = Ret p -> no_adjacent_same_line p = true.
Proof.
  intros H. unfold find_shortest_path in H.
  destruct (a =? b); [injection H as <-; reflexivity|].
  destruct (search_loop _ _ _ _) as [[found st']| |]; simpl in H; try discriminate.
  destruct found; simpl in H; [|injection H as <-; reflexivity].
  eapply reconstruct_legs; [exact H | reflexivity | reflexivity].
Qed.

Lemma path_transfers_merged p :
  no_adjacent_same_line p = true -> path_transfers p = List.length p - 1.
Proof.
  induction p as [|l1 r IH]; intros H; [reflexivity|].
  destruct r as [|l2 r]; [reflexivity|].
  change (path_transfers (l1 :: l2 :: r)) with
    ((if leg_line_id l1 =? leg_line_id l2 then 0 else 1) + path_transfers (l2 :: r)).
  change (no_adjacent_same_line (l1 :: l2 :: r)) with
    (negb (leg_line_id l1 =? leg_line_id l2) && no_adjacent_same_line (l2 :: r)) in H.
  apply andb_true_iff in H as [H1 H2]. apply negb_true_iff in H1. rewrite H1.
  rewrite (IH H2). simpl List.length. lia.
Qed.

(** X4: a transfer route is reported only when no line serves both stops,
    and its [num_transfers] is the number of line changes along the path
    find_shortest_path returned. *)
Theorem search_route_bus_stop_num_transfers fuel net st X Y td d t k :
  search_route_bus_stop fuel net st X Y = Ret (TransferRoute td d t k) ->
  direct_bus_lines st X Y = [] /\
  exists p, find_shortest_path fuel st (stop_id X) (stop_id Y) = Ret p /\
    p <> [] /\ k = path_transfers p.
Proof.
  unfold search_route_bus_stop. intros H.
  destruct (direct_bus_lines st X Y) as [|l ls]; [|discriminate]. split; [reflexivity|].
  destruct (find_shortest_path fuel st (stop_id X) (stop_id Y)) as [p| |] eqn:E;
    try discriminate.
  destruct p as [|leg r]; [discriminate|].
  destruct (collect_transfer_details net st (leg :: r)) as [[|x xs]| |]; try discriminate.
  injection H as _ _ _ <-. exists (leg :: r). split; [reflexivity|]. split; [discriminate|].
  symmetry. apply path_transfers_merged. eapply find_shortest_path_no_adjacent; exact E.
Qed.

Lemma search_route_bus_stop_num_transfers_witness :
  exists td d t k,
  search_route_bus_stop 100 ok_net transfer_store (plain_stop 1) (plain_stop 3)
    = Ret (TransferRoute td d t k) /\
  (direct_bus_lines transfer_store (plain_stop 1) (plain_stop 3) = [] /\
   exists p, find_shortest_path 100 transfer_store (stop_id (plain_stop 1))
               (stop_id (plain_stop 3)) = Ret p /\
     p <> [] /\ k = path_transfers p).
Proof.
  do 4 eexists. split.
  - vm_compute. reflexivity.
  - eapply (search_route_bus_stop_num_transfers 100 ok_net transfer_store).
    vm_compute. reflexivity.
Defined.

(* ------------------------------------------------------------------ *)
(** ** The entries of find_stops_between *)

Lemma positions_from_fst_in X Y i l sp ep p d :
  fst (positions_from X Y i l sp ep) = Some p ->
  sp = Some p \/
  (i <= p /\ p < i + List.length l /\ at_stop X (nth (p - i) l d) = true).
Proof.
  revert i sp ep. induction l as [|s r IH]; simpl; intros i sp ep H; [left; exact H|].
  destruct (IH _ _ _ H) as [Hs|(H1 & H2 & H3)].
  - destruct (at_stop X s) eqn:E; [|left; exact Hs].
    injection Hs as <-. right. rewrite Nat.sub_diag. simpl.
    split; [lia|]. split; [lia | exact E].
  - right. split; [lia|]. split; [lia|].
    replace (p - i) with (S (p - S i)) by lia. exact H3.
Qed.

Lemma positions_from_snd_in X Y i l sp ep q d :
  snd (positions_from X Y i l sp ep) = Some q ->
  ep = Some q \/
  (i <= q /\ q < i + List.length l /\ at_stop Y (nth (q - i) l d) = true).
Proof.
  revert i sp ep. induction l as [|s r IH]; simpl; intros i sp ep H; [left; exact H|].
  destruct (IH _ _ _ H) as [Hs|(H1 & H2 & H3)].
  - destruct (at_stop Y s) eqn:E; [|left; exact Hs].
    injection Hs as <-. right. rewrite Nat.sub_diag. simpl.
    split; [lia|]. split; [lia | exact E].
  - right. split; [lia|]. split; [lia|].
    replace (q - i) with (S (q - S i)) by lia. exact H3.
Qed.

(** A non-empty Python slice [l[lo:hi+1]] starts at [l[lo]] and ends at
    [l[hi]]. *)
Lemma slice_ends {A} (l : list A) d : forall lo hi,
  lo <= hi -> hi < List.length l ->
  exists mid, firstn (hi + 1 - lo) (skipn lo l) = nth lo l d :: mid /\
              last (nth lo l d :: mid) d = nth hi l d.
Proof.
  induction l as [|x l IH]; simpl; intros lo hi Hlh Hh; [lia|].
  destruct lo as [|lo].
  - destruct hi as [|hi]; [exists []; split; reflexivity|].
    destruct (IH 0 hi ltac:(lia) ltac:(lia)) as (mid & Hm & Hl).
    rewrite skipn_O in Hm.
    exists (firstn (hi + 1) l). split.
    + replace (S hi + 1 - 0) with (S (hi + 1)) by lia. reflexivity.
    + replace (hi + 1 - 0) with (hi + 1) in Hm by lia. rewrite Hm. exact Hl.
  - destruct hi as [|hi]; [lia|].
    destruct (IH lo hi ltac:(lia) ltac:(lia)) as (mid & Hm & Hl).
    exists mid. replace (S hi + 1 - S lo) with (hi + 1 - lo) by lia. auto.
Qed.

Lemma In_firstn {A} n : forall (l : list A) x, In x (firstn n l) -> In x l.
Proof.
  induction n as [|n IH]; intros [|y l] x H; simpl in H; try contradiction.
  destruct H as [<-|H]; [left; reflexivity | right; eapply IH; exact H].
Qed.

Lemma last_map {A B} (f : A -> B) l d : last (map f l) (f d) = f (last l d).
Proof.
  induction l as [|x [|y l] IH]; simpl; auto.
Qed.

Lemma last_cons_default {A} l : forall (x : A) d1 d2, last (x :: l) d1 = last (x :: l) d2.
Proof.
  induction l as [|y l IH]; intros x d1 d2; [reflexivity|].
  change (last (x :: y :: l) d1) with (last (y :: l) d1).
  change (last (x :: y :: l) d2) with (last (y :: l) d2). apply IH.
Qed.

Lemma StronglySorted_skipn {A} (R : A -> A -> Prop) n : forall l,
  StronglySorted R l -> StronglySorted R (skipn n l).
Proof.
  induction n as [|n IH]; intros [|x l] H; simpl; auto.
  apply IH. apply StronglySorted_inv in H as [H _]. exact H.
Qed.

Lemma StronglySorted_firstn {A} (R : A -> A -> Prop) n : forall l,
  StronglySorted R l -> StronglySorted R (firstn n l).
Proof.
  induction n as [|n IH]; intros [|x l] H; simpl; try constructor.
  - apply StronglySorted_inv in H as [H _]. apply IH, H.
  - apply StronglySorted_inv in H as [_ H]. rewrite Forall_forall in *.
    intros y Hy. apply H. eapply In_firstn; exact Hy.
Qed.

Lemma sorted_orders l :
  StronglySorted (fun a b => order_le a b = true) l -> Sorted Z.le (map seg_order l).
Proof.
  intros H. apply StronglySorted_Sorted.
  induction H as [|x l Hl IH Hx]; simpl; constructor; [exact IH|].
  rewrite Forall_forall in *. intros y Hy. apply in_map_iff in Hy as (s & <- & Hs).
  specialize (Hx s Hs). unfold order_le in Hx. apply Z.leb_le, Hx.
Qed.

(** X5: every entry of find_stops_between lists at least one stop; its
    first and last stops are the two queried stops (one each, in either
    order); its orders are non-decreasing; and [total_stops] and the
    number of orders are the number of stops listed. *)
Theorem find_stops_between_entry_shape st X Y e :
  In e (find_stops_between st X Y) ->
  be_total_stops e = List.length (be_stops e) /\
  List.length (be_orders e) = List.length (be_stops e) /\
  Sorted Z.le (be_orders e) /\
  exists first, hd_error (be_stops e) = Some first /\
    ((stop_id first = stop_id X /\ stop_id (last (be_stops e) first) = stop_id Y) \/
     (stop_id first = stop_id Y /\ stop_id (last (be_stops e) first) = stop_id X)).
Proof.
  intros He. apply in_find_stops_between in He as [_ He].
  revert He. unfold stops_between_on_line.
  set (rs := sort_by order_le (filter (on_line (be_line e)) (segments st))).
  set (d := mkRouteSegment (be_line e) X 0).
  destruct (positions_from X Y 0 rs None None) as [sp ep] eqn:Hpos.
  destruct sp as [p|]; [|discriminate]. destruct ep as [q|]; [|discriminate].
  assert (Hp := positions_from_fst_in X Y 0 rs None None p d ltac:(rewrite Hpos; reflexivity)).
  assert (Hq := positions_from_snd_in X Y 0 rs None None q d ltac:(rewrite Hpos; reflexivity)).
  destruct Hp as [Hp|(_ & Hp & HpX)]; [discriminate|].
  destruct Hq as [Hq|(_ & Hq & HqY)]; [discriminate|].
  rewrite Nat.sub_0_r in HpX, HqY. simpl in Hp, Hq.
  assert (Hsorted : StronglySorted (fun a b => order_le a b = true) rs).
  { apply Sorted_StronglySorted.
    - intros x y z. unfold order_le. rewrite !Z.leb_le. lia.
    - apply sort_by_sorted, order_le_total. }
  assert (Hshape : forall lo hi, lo <= hi -> hi < List.length rs ->
    ((at_stop X (nth lo rs d) = true /\ at_stop Y (nth hi rs d) = true) \/
     (at_stop Y (nth lo rs d) = true /\ at_stop X (nth hi rs d) = true)) ->
    forall e', Some (mkBetweenEntry (be_line e)
                  (map seg_stop (firstn (hi + 1 - lo) (skipn lo rs)))
                  (List.length (firstn (hi + 1 - lo) (skipn lo rs)))
                  (map seg_order (firstn (hi + 1 - lo) (skipn lo rs)))) = Some e' ->
    be_total_stops e' = List.length (be_stops e') /\
    List.length (be_orders e') = List.length (be_stops e') /\
    Sorted Z.le (be_orders e') /\
    exists first, hd_error (be_stops e') = Some first /\
      ((stop_id first = stop_id X /\ stop_id (last (be_stops e') first) = stop_id Y) \/
       (stop_id first = stop_id Y /\ stop_id (last (be_stops e') first) = stop_id X))).
  { intros lo hi Hlh Hh Hends e' H. injection H as <-. simpl.
    rewrite !length_map. split; [reflexivity|]. split; [reflexivity|]. split.
    { apply sorted_orders, StronglySorted_firstn, StronglySorted_skipn, Hsorted. }
    destruct (slice_ends rs d lo hi Hlh Hh) as (mid & Hm & Hl). rewrite Hm.
    exists (seg_stop (nth lo rs d)). split; [reflexivity|].
    change (seg_stop (nth lo rs d) :: map seg_stop mid) with (map seg_stop (nth lo rs d :: mid)).
    rewrite last_map, (last_cons_default mid (nth lo rs d) (nth lo rs d) d), Hl.
    unfold at_stop in Hends. rewrite !Nat.eqb_eq in Hends. tauto. }
  destruct (q <? p) eqn:E.
  - apply Nat.ltb_lt in E. apply Hshape; [lia | exact Hp | right; auto].
  - apply Nat.ltb_ge in E. apply Hshape; [lia | exact Hq | left; auto].
Qed.

Lemma find_stops_between_entry_shape_witness :
  exists e, In e (find_stops_between two_line_store (plain_stop 3) (plain_stop 1)) /\
  (be_total_stops e = List.length (be_stops e) /\
   List.length (be_orders e) = List.length (be_stops e) /\
   Sorted Z.le (be_orders e) /\
   exists first, hd_error (be_stops e) = Some first /\
     ((stop_id first = stop_id (plain_stop 3) /\
       stop_id (last (be_stops e) first) = stop_id (plain_stop 1)) \/
      (stop_id first = stop_id (plain_stop 1) /\
       stop_id (last (be_stops e) first) = stop_id (plain_stop 3)))).
Proof.
  eexists. split.
  - vm_compute. left. reflexivity.
  - apply (find_stops_between_entry_shape two_line_store (plain_stop 3) (plain_stop 1)).
    vm_compute. left. reflexivity.
Defined.

(* ------------------------------------------------------------------ *)
(** ** The whole-line search *)

Lemma meta_le_iff a b :
  meta_le a b = true <->
  line_id (seg_line a) < line_id (seg_line b) \/
  (line_id (seg_line a) = line_id (seg_line b) /\ (seg_order a <= seg_order b)%Z).
Proof.
  unfold meta_le. rewrite orb_true_iff, andb_true_iff, Nat.ltb_lt, Nat.eqb_eq, Z.leb_le.
  tauto.
Qed.

Lemma meta_le_total a b : meta_le a b = false -> meta_le b a = true.
Proof.
  intros H. assert (Hn : ~ (line_id (seg_line a) < line_id (seg_line b) \/
    (line_id (seg_line a) = line_id (seg_line b) /\ (seg_order a <= seg_order b)%Z)))
    by (rewrite <- meta_le_iff; congruence).
  apply meta_le_iff. lia.
Qed.

Lemma sort_by_cons_in {A} (le : A -> A -> bool) l h r :
  sort_by le l = h :: r -> In h l.
Proof.
  intros H. apply (Permutation_in _ (sort_by_perm le l)). rewrite H. left; reflexivity.
Qed.

Lemma sort_by_nonempty {A} (le : A -> A -> bool) l x :
  In x l -> exists h r, sort_by le l = h :: r.
Proof.
  intros Hx. destruct (sort_by le l) as [|h r] eqn:E; [|eauto].
  apply (Permutation_in _ (Permutation_sym (sort_by_perm le l))) in Hx.
  rewrite E in Hx. destruct Hx.
Qed.

(** The head of a sorted list is below every element of the list. *)
Lemma sort_by_cons_min {A} (le : A -> A -> bool)
    (le_refl : forall a, le a a = true)
    (le_trans : forall a b c, le a b = true -> le b c = true -> le a c = true)
    (le_total : forall a b, le a b = false -> le b a = true) l h r y :
  sort_by le l = h :: r -> In y l -> le h y = true.
Proof.
  intros H Hy.
  assert (Hs : StronglySorted (fun a b => le a b = true) (h :: r)).
  { rewrite <- H. apply Sorted_StronglySorted; [exact le_trans|].
    apply sort_by_sorted, le_total. }
  apply (Permutation_in _ (Permutation_sym (sort_by_perm le l))) in Hy.
  rewrite H in Hy. destruct Hy as [<-|Hy]; [apply le_refl|].
  apply StronglySorted_inv in Hs as [_ Hs]. rewrite Forall_forall in Hs. auto.
Qed.

(** The last element of a sorted list is above every element of it. *)
Lemma StronglySorted_last {A} (R : A -> A -> Prop) (R_refl : forall a, R a a) d :
  forall l x y, StronglySorted R (x :: l) -> In y (x :: l) -> R y (last (x :: l) d).
Proof.
  induction l as [|z l IH]; intros x y Hs Hy.
  - destruct Hy as [<-|[]]. apply R_refl.
  - change (last (x :: z :: l) d) with (last (z :: l) d).
    apply StronglySorted_inv in Hs as [Hs Hx].
    destruct Hy as [<-|Hy]; [|apply IH; assumption].
    rewrite Forall_forall in Hx. apply Hx.
    clear. revert z. induction l as [|w l IH]; intros z; [left; reflexivity|].
    right. apply IH.
Qed.

Lemma NoDup_map_inj {A B} (f : A -> B) l a b :
  NoDup (map f l) -> In a l -> In b l -> f a = f b -> a = b.
Proof.
  induction l as [|x l IH]; simpl; intros Hn Ha Hb Hab; [contradiction|].
  inversion Hn as [|? ? Hx Hl]; subst.
  destruct Ha as [<-|Ha], Hb as [<-|Hb]; auto.
  - exfalso. apply Hx. rewrite Hab. apply in_map, Hb.
  - exfalso. apply Hx. rewrite <- Hab. apply in_map, Ha.
Qed.

Lemma filter_all_true {A} (f : A -> bool) l :
  (forall x, In x l -> f x = true) -> filter f l = l.
Proof.
  induction l as [|x l IH]; simpl; intros H; [reflexivity|].
  rewrite H by (left; reflexivity). f_equal. apply IH. auto.
Qed.

Lemma order_le_refl a : order_le a a = true.
Proof. apply Z.leb_refl. Qed.

Lemma order_le_trans a b c : order_le a b = true -> order_le b c = true -> order_le a c = true.
Proof. unfold order_le. rewrite !Z.leb_le. lia. Qed.

Lemma meta_le_refl a : meta_le a a = true.
Proof. apply meta_le_iff. right. split; [reflexivity | lia]. Qed.

Lemma meta_le_trans a b c : meta_le a b = true -> meta_le b c = true -> meta_le a c = true.
Proof. rewrite !meta_le_iff. lia. Qed.

(** With distinct orders on the line, the first segment of the line is
    the one [segment_of] finds at its stop. *)
Lemma segment_of_first st L first rest :
  NoDup (map seg_order (filter (on_line L) (segments st))) ->
  sort_by order_le (filter (on_line L) (segments st)) = first :: rest ->
  segment_of st L (seg_stop first) = Some first.
Proof.
  intros Hn Hrs. unfold segment_of.
  assert (Hf : In first (filter (on_line L) (segments st))) by (eapply sort_by_cons_in; exact Hrs).
  apply filter_In in Hf as [Hf Hfl].
  assert (HF : In first (filter (fun s => on_line L s && at_stop (seg_stop first) s)
                            (segments st))).
  { apply filter_In. split; [exact Hf|]. rewrite Hfl. unfold at_stop. apply Nat.eqb_refl. }
  destruct (sort_by_nonempty meta_le _ _ HF) as (h & r & Hs). rewrite Hs. simpl. f_equal.
  pose proof (sort_by_cons_in _ _ _ _ Hs) as Hh. apply filter_In in Hh as [Hh Hhl].
  apply andb_true_iff in Hhl as [Hhl _].
  pose proof (sort_by_cons_min meta_le meta_le_refl meta_le_trans meta_le_total
                _ _ _ _ Hs HF) as Hm.
  assert (Hhin : In h (filter (on_line L) (segments st))) by (apply filter_In; auto).
  pose proof (sort_by_cons_min order_le order_le_refl order_le_trans order_le_total
                _ _ _ _ Hrs Hhin) as Hm'.
  apply meta_le_iff in Hm. unfold on_line in Hhl, Hfl. apply Nat.eqb_eq in Hhl, Hfl.
  unfold order_le in Hm'. apply Z.leb_le in Hm'.
  apply (NoDup_map_inj seg_order _ _ _ Hn); [exact Hhin | eapply sort_by_cons_in; exact Hrs |].
  rewrite Hhl, Hfl in Hm. lia.
Qed.

(** [segment_of] depends on the stop only through its id. *)
Lemma segment_of_stop_id st L X X' :
  stop_id X = stop_id X' -> segment_of st L X = segment_of st L X'.
Proof.
  intros H. unfold segment_of, at_stop. rewrite H. reflexivity.
Qed.

(** get_segment_details on a non-empty slice. *)
Lemma get_segment_details_slice net st L X Y s segs :
  segment_slice st L X Y = Some (s :: segs) ->
  exists dist time, get_segment_details net st L X Y =
    Ret (Some (mkSegmentDetails (List.length (s :: segs)) dist time
                 (map stop_display (s :: segs)) (name_en X) (name_en Y))).
Proof.
  intros H. unfold get_segment_details. rewrite H.
  destruct (get_route_details_from_osrm_ret net (route_stops_coords (s :: segs)))
    as [[dist time] Hr].
  exists dist, time. cbv beta iota. rewrite Hr. reflexivity.
Qed.

(** X6: the whole-line search on a line whose segments have distinct
    orders and visit distinct stops lists every segment of the line in
    order: [stops_count] is the number of the line's segments. *)
Theorem search_bus_line_whole_line net st n L :
  filter (fun l => (line_number l =? n)%Z) (lines st) = [L] ->
  filter (on_line L) (segments st) <> [] ->
  NoDup (map seg_order (filter (on_line L) (segments st))) ->
  NoDup (map (fun s => stop_id (seg_stop s)) (filter (on_line L) (segments st))) ->
  exists d, search_bus_line net st n = FullLine d /\
    stops_count d = List.length (filter (on_line L) (segments st)) /\
    route_stops d = map stop_display (sort_by order_le (filter (on_line L) (segments st))).
Proof.
  intros HL Hne Hn Hstops. unfold search_bus_line. rewrite HL.
  set (segsL := filter (on_line L) (segments st)) in *.
  destruct (sort_by order_le segsL) as [|first rest] eqn:Hrs.
  { exfalso. apply Hne. apply Permutation_nil. rewrite <- Hrs. apply sort_by_perm. }
  set (lastseg := last (first :: rest) first).
  assert (Hlast_in : In lastseg segsL).
  { apply (Permutation_in _ (sort_by_perm order_le segsL)). rewrite Hrs.
    unfold lastseg. clear. revert first. induction rest as [|w l IH]; intros z;
      [left; reflexivity|]. right.
    change (last (z :: w :: l) z) with (last (w :: l) z).
    rewrite (last_cons_default l w z w). apply IH. }
  assert (Hsorted : StronglySorted (fun a b => order_le a b = true) (first :: rest)).
  { rewrite <- Hrs. apply Sorted_StronglySorted; [exact order_le_trans|].
    apply sort_by_sorted, order_le_total. }
  assert (Hmax : forall y, In y segsL -> order_le y lastseg = true).
  { intros y Hy. apply (Permutation_in _ (Permutation_sym (sort_by_perm order_le segsL))) in Hy.
    rewrite Hrs in Hy. unfold lastseg.
    exact (StronglySorted_last (fun a b => order_le a b = true) order_le_refl first
             rest first y Hsorted Hy). }
  assert (Hmin : forall y, In y segsL -> order_le first y = true).
  { intros y Hy. eapply (sort_by_cons_min order_le order_le_refl order_le_trans
                           order_le_total); eassumption. }
  unfold order_le in Hmin, Hmax.
  assert (Hfirst : segment_of st L (seg_stop first) = Some first)
    by (eapply segment_of_first; [exact Hn | exact Hrs]).
  assert (Hlast : segment_of st L (seg_stop lastseg) = Some lastseg).
  { unfold segment_of.
    assert (HF : In lastseg (filter (fun s => on_line L s && at_stop (seg_stop lastseg) s)
                                (segments st))).
    { apply filter_In in Hlast_in as [H1 H2]. apply filter_In. split; [exact H1|].
      rewrite H2. unfold at_stop. apply Nat.eqb_refl. }
    destruct (sort_by_nonempty meta_le _ _ HF) as (h & r & Hs). rewrite Hs. simpl. f_equal.
    pose proof (sort_by_cons_in _ _ _ _ Hs) as Hh. apply filter_In in Hh as [Hh Hhl].
    apply andb_true_iff in Hhl as [Hhl Hhs].
    apply (NoDup_map_inj (fun s => stop_id (seg_stop s)) _ _ _ Hstops);
      [apply filter_In; auto | exact Hlast_in |].
    unfold at_stop in Hhs. apply Nat.eqb_eq in Hhs. exact Hhs. }
  assert (Hslice : segment_slice st L (seg_stop first) (seg_stop lastseg)
                   = Some (first :: rest)).
  { unfold segment_slice. rewrite Hfirst, Hlast.
    rewrite (Hmin lastseg Hlast_in). f_equal.
    rewrite (filter_ext (fun s => on_line L s && (seg_order first <=? seg_order s)%Z
                                  && (seg_order s <=? seg_order lastseg)%Z)
               (fun s => on_line L s && ((seg_order first <=? seg_order s)%Z
                                  && (seg_order s <=? seg_order lastseg)%Z)))
      by (intros; symmetry; apply andb_assoc).
    rewrite (line_sorted_filter st L _ Hn). fold segsL. rewrite Hrs.
    apply filter_all_true. intros y Hy.
    assert (Hy' : In y segsL).
    { apply (Permutation_in _ (sort_by_perm order_le segsL)). rewrite Hrs. exact Hy. }
    rewrite (Hmin y Hy'). exact (Hmax y Hy'). }
  destruct (get_segment_details_slice net st L _ _ _ _ Hslice) as (dist & time & Hd).
  fold lastseg. rewrite Hd.
  eexists. split; [reflexivity|]. simpl. split; [|reflexivity].
  rewrite <- (Permutation_length (sort_by_perm order_le segsL)), Hrs. reflexivity.
Qed.

(** X7: on a line whose first and last segments (by order) are at the
    same stop, with distinct orders, the whole-line search reports only
    the first stop: [stops_count] is 1. *)
Theorem search_bus_line_circular net st n L first rest :
  filter (fun l => (line_number l =? n)%Z) (lines st) = [L] ->
  NoDup (map seg_order (filter (on_line L) (segments st))) ->
  sort_by order_le (filter (on_line L) (segments st)) = first :: rest ->
  stop_id (seg_stop (last (first :: rest) first)) = stop_id (seg_stop first) ->
  exists d, search_bus_line net st n = FullLine d /\
    stops_count d = 1 /\ route_stops d = [stop_display first].
Proof.
  intros HL Hn Hrs Hcirc. unfold search_bus_line. rewrite HL.
  set (segsL := filter (on_line L) (segments st)) in *. rewrite Hrs.
  set (lastseg := last (first :: rest) first) in *.
  assert (Hfirst : segment_of st L (seg_stop first) = Some first)
    by (eapply segment_of_first; [exact Hn | exact Hrs]).
  assert (Hslice : segment_slice st L (seg_stop first) (seg_stop lastseg) = Some [first]).
  { unfold segment_slice. rewrite (segment_of_stop_id st L (seg_stop lastseg) (seg_stop first)
                                     Hcirc), Hfirst.
    rewrite Z.leb_refl. f_equal.
    rewrite (filter_ext (fun s => on_line L s && (seg_order first <=? seg_order s)%Z
                                  && (seg_order s <=? seg_order first)%Z)
               (fun s => on_line L s && ((seg_order first <=? seg_order s)%Z
                                  && (seg_order s <=? seg_order first)%Z)))
      by (intros; symmetry; apply andb_assoc).
    rewrite (line_sorted_filter st L _ Hn). fold segsL. rewrite Hrs.
    simpl. rewrite Z.leb_refl. simpl. f_equal.
    pose proof (sort_asc_strict segsL Hn) as Hs. rewrite Hrs in Hs.
    transitivity (filter (fun _ => false) rest).
    - apply filter_ext_in. intros s Hin.
      pose proof (StronglySorted_head_lt first rest s Hs Hin).
      rewrite (proj2 (Z.leb_gt (seg_order s) (seg_order first))) by lia.
      apply andb_false_r.
    - clear. induction rest; simpl; auto. }
  destruct (get_segment_details_slice net st L _ _ _ _ Hslice) as (dist & time & Hd).
  rewrite Hd. eexists. split; [reflexivity|]. simpl. auto.
Qed.

Lemma search_bus_line_whole_line_witness :
  (filter (fun l => (line_number l =? 10)%Z) (lines one_line_store) = [line_10] /\
   filter (on_line line_10) (segments one_line_store) <> [] /\
   NoDup (map seg_order (filter (on_line line_10) (segments one_line_store))) /\
   NoDup (map (fun s => stop_id (seg_stop s)) (filter (on_line line_10) (segments one_line_store)))) /\
  exists d, search_bus_line ok_net one_line_store 10 = FullLine d /\
    stops_count d = List.length (filter (on_line line_10) (segments one_line_store)) /\
    route_stops d =
      map stop_display (sort_by order_le (filter (on_line line_10) (segments one_line_store))).
Proof.
  assert (H1 : filter (fun l => (line_number l =? 10)%Z) (lines one_line_store) = [line_10])
    by (vm_compute; reflexivity).
  assert (H2 : filter (on_line line_10) (segments one_line_store) <> [])
    by (vm_compute; discriminate).
  assert (H3 : NoDup (map seg_order (filter (on_line line_10) (segments one_line_store))))
    by (vm_compute; repeat constructor; simpl; lia).
  assert (H4 : NoDup (map (fun s => stop_id (seg_stop s))
                          (filter (on_line line_10) (segments one_line_store))))
    by (vm_compute; repeat constructor; simpl; lia).
  split; [auto|]. apply (search_bus_line_whole_line ok_net one_line_store 10 line_10 H1 H2 H3 H4).
Defined.

Lemma search_bus_line_circular_witness :
  (filter (fun l => (line_number l =? 10)%Z) (lines circular_store) = [line_10] /\
   NoDup (map seg_order (filter (on_line line_10) (segments circular_store))) /\
   sort_by order_le (filter (on_line line_10) (segments circular_store))
     = circular_seg_1 :: [circular_seg_2; circular_seg_3] /\
   stop_id (seg_stop (last (circular_seg_1 :: [circular_seg_2; circular_seg_3]) circular_seg_1))
     = stop_id (seg_stop circular_seg_1)) /\
  exists d, search_bus_line ok_net circular_store 10 = FullLine d /\
    stops_count d = 1 /\ route_stops d = [stop_display circular_seg_1].
Proof.
  assert (H1 : filter (fun l => (line_number l =? 10)%Z) (lines circular_store) = [line_10])
    by (vm_compute; reflexivity).
  assert (H2 : NoDup (map seg_order (filter (on_line line_10) (segments circular_store))))
    by (vm_compute; repeat constructor; simpl; lia).
  assert (H3 : sort_by order_le (filter (on_line line_10) (segments circular_store))
                 = circular_seg_1 :: [circular_seg_2; circular_seg_3])
    by (vm_compute; reflexivity).
  assert (H4 : stop_id (seg_stop (last (circular_seg_1 :: [circular_seg_2; circular_seg_3])
                                      circular_seg_1)) = stop_id (seg_stop circular_seg_1))
    by (vm_compute; reflexivity).
  split; [auto|].
  apply (search_bus_line_circular ok_net circular_store 10 line_10 circular_seg_1
           [circular_seg_2; circular_seg_3] H1 H2 H3 H4).
Defined.

(* ------------------------------------------------------------------ *)
(** ** Lines through a stop *)

Lemma existsb_Zeqb_false z P : existsb (Z.eqb z) P = false <-> ~ In z P.
Proof.
  split.
  - intros H Hin. assert (existsb (Z.eqb z) P = true) by
      (apply existsb_exists; exists z; split; [exact Hin | apply Z.eqb_refl]). congruence.
  - intros H. destruct (existsb (Z.eqb z) P) eqn:E; [|reflexivity].
    apply existsb_exists in E as (y & Hy & Hz). apply Z.eqb_eq in Hz. subst y. contradiction.
Qed.

Lemma line_info_ret net st L :
  exists i, line_info net st L = Ret i /\
    li_bus_line_number i = line_number L /\
    li_stops_count i = List.length (filter (on_line L) (segments st)).
Proof.
  unfold line_info.
  destruct (get_route_details_from_osrm_ret net
              (route_stops_coords (sort_by order_le (filter (on_line L) (segments st)))))
    as [[d t] Hr].
  rewrite Hr. cbv beta iota. eexists. split; [reflexivity|]. simpl. split; [reflexivity|].
  apply Permutation_length, sort_by_perm.
Qed.

Lemma buses_by_stop_loop_spec net st segs : forall P,
  exists infos, buses_by_stop_loop net st P segs = Ret infos /\
    NoDup (map li_bus_line_number infos) /\
    (forall z, In z (map li_bus_line_number infos) <->
               ~ In z P /\ exists s, In s segs /\ line_number (seg_line s) = z) /\
    (forall i, In i infos -> exists s, In s segs /\
       line_number (seg_line s) = li_bus_line_number i /\
       li_stops_count i = List.length (filter (on_line (seg_line s)) (segments st))).
Proof.
  induction segs as [|s r IH]; intros P; simpl.
  - exists []. split; [reflexivity|]. split; [constructor|]. split; [|intros _ []].
    intros z. simpl. split; [intros []|]. intros (_ & ? & [] & _).
  - destruct (existsb (Z.eqb (line_number (seg_line s))) P) eqn:E.
    + destruct (IH P) as (infos & Hl & Hn & Hz & Hi). exists infos.
      split; [exact Hl|]. split; [exact Hn|]. split.
      * intros z. rewrite Hz. split.
        -- intros [HP (s' & Hs' & Hz')]. split; [exact HP|]. exists s'; auto.
        -- intros [HP (s' & [<-|Hs'] & Hz')]; [|split; [exact HP | exists s'; auto]].
           exfalso. apply existsb_exists in E as (y & Hy & Hyz).
           apply Z.eqb_eq in Hyz. subst. contradiction.
      * intros i Hin. destruct (Hi i Hin) as (s' & Hs' & H). exists s'. auto.
    + destruct (line_info_ret net st (seg_line s)) as (i & Hli & Hin & Hic).
      rewrite Hli. simpl.
      destruct (IH (line_number (seg_line s) :: P)) as (infos & Hl & Hn & Hz & Hi).
      rewrite Hl. simpl. exists (i :: infos). split; [reflexivity|].
      apply existsb_Zeqb_false in E.
      split; [|split].
      * simpl. constructor; [|exact Hn].
        rewrite Hin. intros Hm. apply Hz in Hm as [Hm _]. apply Hm. left; reflexivity.
      * intros z. simpl. rewrite Hz. split.
        -- intros [<-|[HP (s' & Hs' & Hz')]].
           ++ rewrite Hin. split; [exact E|]. exists s; auto.
           ++ split; [intros Hzp; apply HP; right; exact Hzp|]. exists s'; auto.
        -- intros [HP (s' & Hs' & Hz')].
           destruct (Z.eq_dec (line_number (seg_line s)) z) as [Heq|Hne].
           ++ left. rewrite Hin. exact Heq.
           ++ right. split; [intros [Hzs|Hzp]; [apply Hne, Hzs | apply HP, Hzp]|].
              destruct Hs' as [<-|Hs']; [contradiction|]. exists s'; auto.
      * intros i' [<-|Hin'].
        -- exists s. split; [left; reflexivity|]. split; [symmetry; exact Hin | exact Hic].
        -- destruct (Hi i' Hin') as (s' & Hs' & H). exists s'. auto.
Qed.

(** X8: the lines-through-a-stop search never reports an error.  When the
    stop has no segment it reports that; otherwise it lists a non-empty
    list with each line number of a segment at the stop exactly once, in strictly increasing
    order, and each entry's [stops_count] is the number of segments of a
    line with that number that has a segment at the stop. *)
Theorem search_buses_by_stop_spec net st X :
  match search_buses_by_stop net st X with
  | StopLines infos =>
      infos <> [] /\
      StronglySorted (fun a b => (li_bus_line_number a < li_bus_line_number b)%Z) infos /\
      (forall z, In z (map li_bus_line_number infos) <->
         exists s, In s (segments st) /\ at_stop X s = true /\ line_number (seg_line s) = z) /\
      (forall i, In i infos -> exists s, In s (segments st) /\ at_stop X s = true /\
         line_number (seg_line s) = li_bus_line_number i /\
         li_stops_count i = List.length (filter (on_line (seg_line s)) (segments st)))
  | NoLinesAtStop => forall s, In s (segments st) -> at_stop X s = false
  | StopLinesFailed => False
  end.
Proof.
  unfold search_buses_by_stop.
  set (le := fun a b : RouteSegment => (line_number (seg_line a) <=? line_number (seg_line b))%Z).
  set (ats := filter (at_stop X) (segments st)).
  assert (Hats : forall s, In s (sort_by le ats) <-> In s (segments st) /\ at_stop X s = true).
  { intros s. rewrite <- filter_In. split; apply Permutation_in;
      [apply sort_by_perm | symmetry; apply sort_by_perm]. }
  destruct (sort_by le ats) as [|s0 r0] eqn:Hs.
  - intros s Hin. destruct (at_stop X s) eqn:E; [|reflexivity].
    exfalso. apply (proj2 (Hats s)). auto.
  - rewrite <- Hs. rewrite <- Hs in Hats.
    destruct (buses_by_stop_loop_spec net st (sort_by le ats) [])
      as (infos & Hl & Hn & Hz & Hi).
    rewrite Hl.
    set (lel := fun a b : LineInfo => (li_bus_line_number a <=? li_bus_line_number b)%Z).
    assert (Hperm : Permutation (sort_by lel infos) infos) by apply sort_by_perm.
    split.
    { intros Hnil. rewrite Hnil in Hperm. apply Permutation_nil in Hperm. subst infos.
      assert (H0 : In s0 (sort_by le ats)) by (rewrite Hs; left; reflexivity).
      apply Hats in H0 as [H01 H02].
      assert (Hm : In (line_number (seg_line s0)) (map li_bus_line_number [])).
      { apply Hz. split; [intros []|]. exists s0. split; [apply Hats; auto | reflexivity]. }
      destruct Hm. }
    split; [|split].
    + apply (StronglySorted_strict li_bus_line_number (fun a b => lel a b = true)).
      * intros a b H Hne. unfold lel in H. apply Z.leb_le in H. lia.
      * apply Sorted_StronglySorted.
        -- intros a b c. unfold lel. rewrite !Z.leb_le. lia.
        -- apply sort_by_sorted. intros a b. unfold lel. rewrite Z.leb_gt, Z.leb_le. lia.
      * apply (NoDup_map_perm li_bus_line_number infos); [symmetry; exact Hperm | exact Hn].
    + intros z. split.
      * intros Hm. apply (Permutation_in _ (Permutation_map li_bus_line_number Hperm)) in Hm.
        apply Hz in Hm as [_ (s & Hs' & Hsz)]. apply Hats in Hs' as [Hs1 Hs2]. eauto.
      * intros (s & Hs1 & Hs2 & Hsz).
        apply (Permutation_in _ (Permutation_map li_bus_line_number (Permutation_sym Hperm))).
        apply Hz. split; [intros []|]. exists s. split; [apply Hats; auto | exact Hsz].
    + intros i Hin. apply (Permutation_in _ Hperm) in Hin.
      destruct (Hi i Hin) as (s & Hs' & H). apply Hats in Hs' as [Hs1 Hs2]. exists s. auto.
Qed.

(* ------------------------------------------------------------------ *)
(** ** The line route API *)

Lemma existsb_filter_nil {A} (f : A -> bool) l :
  filter f l = [] -> existsb f l = false.
Proof.
  induction l as [|x l IH]; simpl; [reflexivity|].
  destruct (f x); [discriminate | exact IH].
Qed.

(** X9: bus_line_route_api answers with status 500 for every line that has
    a segment (reading [segment.start_stop], which a [RouteSegment] does
    not have, raises), and with an empty list for a line without segments. *)
Theorem bus_line_route_api_result st bus_line_id :
  bus_line_route_api st bus_line_id =
  if existsb (fun s => line_id (seg_line s) =? bus_line_id) (segments st)
  then RouteApiError 500 else RouteApiData [].
Proof.
  unfold bus_line_route_api.
  set (f := fun s => line_id (seg_line s) =? bus_line_id).
  destruct (sort_by order_le (filter f (segments st))) as [|s r] eqn:E.
  - assert (Hf : filter f (segments st) = []).
    { apply Permutation_nil. rewrite <- E. apply sort_by_perm. }
    rewrite (existsb_filter_nil _ _ Hf). reflexivity.
  - assert (Hs : In s (filter f (segments st))) by (eapply sort_by_cons_in; exact E).
    apply filter_In in Hs as [Hs Hfs].
    assert (Hex : existsb f (segments st) = true) by (apply existsb_exists; eauto).
    rewrite Hex. reflexivity.
Qed.

(* ------------------------------------------------------------------ *)
(** ** Registration *)

(** X10: registration keeps usernames unique: from a table without two
    rows of the same username, register_view never produces one. *)
Theorem register_view_usernames_unique normalize_email users username email password :
  NoDup (map user_username users) ->
  NoDup (map user_username
           (snd (register_view normalize_email users username email password))).
Proof.
  intros Hn. unfold register_view.
  destruct (_ || _); [exact Hn|].
  destruct (existsb (fun u => String.eqb (user_username u) username) users) eqn:Eu;
    [exact Hn|].
  destruct (existsb (fun u => String.eqb (user_email u) email) users); [exact Hn|].
  simpl. rewrite map_app. simpl. apply NoDup_app; [exact Hn | repeat constructor; auto|].
  intros x Hx [<-|[]].
  apply in_map_iff in Hx as (u & Hu & Hin).
  assert (existsb (fun u => String.eqb (user_username u) username) users = true)
    by (apply existsb_exists; exists u; split; [exact Hin | apply String.eqb_eq, Hu]).
  congruence.
Qed.

Lemma register_view_usernames_unique_witness :
  NoDup (map user_username [mkUserRow "alice" "a@x.org"]) /\
  NoDup (map user_username
           (snd (register_view (fun e => e) [mkUserRow "alice" "a@x.org"]
                   "alice" "b@x.org" "password1"))).
Proof.
  assert (H : NoDup (map user_username [mkUserRow "alice" "a@x.org"]))
    by (repeat constructor; simpl; tauto).
  split; [exact H|]. apply (register_view_usernames_unique _ _ _ _ _ H).
Defined.

(** X11: the email check compares the submitted email with the stored,
    normalized ones: after a successful registration with email [e], a
    second registration with a new username, a valid password and the
    same [e] is refused exactly when normalizing [e] leaves it unchanged. *)
Theorem register_view_same_email normalize_email users u e p users' u' p' :
  register_view normalize_email users u e p = (Registered, users') ->
  ~ In u' (map user_username users) -> u' <> u ->
  8 <= String.length p' -> any_digit p' = true ->
  fst (register_view normalize_email users' u' e p') =
  if String.eqb (normalize_email e) e then EmailTaken else Registered.
Proof.
  unfold register_view at 1. intros H Hu' Hne Hlen Hd.
  destruct (_ || _); [discriminate|].
  destruct (existsb (fun u0 => String.eqb (user_username u0) u) users); [discriminate|].
  destruct (existsb (fun u0 => String.eqb (user_email u0) e) users) eqn:Ee; [discriminate|].
  injection H as <-. unfold register_view.
  replace (String.length p' <? 8) with false by (symmetry; apply Nat.ltb_ge; exact Hlen).
  rewrite Hd. simpl.
  rewrite !existsb_app. simpl.
  replace (existsb (fun u0 => String.eqb (user_username u0) u') users) with false.
  2:{ symmetry. apply not_true_iff_false. intros Hx. apply existsb_exists in Hx as (r & Hr & Hx).
      apply String.eqb_eq in Hx. apply Hu'. rewrite <- Hx. apply in_map, Hr. }
  replace (String.eqb u u') with false
    by (symmetry; apply String.eqb_neq; intros X; apply Hne; symmetry; exact X).
  rewrite Ee. simpl. destruct (String.eqb (normalize_email e) e); reflexivity.
Qed.

Lemma register_view_same_email_witness :
  exists users',
  register_view Py.lower [] "alice" "a@X.org" "password1" = (Registered, users') /\
  ~ In "bob"%string (map user_username []) /\ "bob"%string <> "alice"%string /\
  8 <= String.length "password2" /\ any_digit "password2" = true /\
  fst (register_view Py.lower users' "bob" "a@X.org" "password2") = Registered.
Proof.
  eexists. split; [vm_compute; reflexivity|].
  split; [simpl; tauto|]. split; [discriminate|]. split; [simpl; lia|].
  split; [reflexivity|].
  rewrite (register_view_same_email Py.lower [] "alice" "a@X.org" "password1" _ "bob"
             "password2"); [reflexivity | vm_compute; reflexivity | simpl; tauto
             | discriminate | simpl; lia | reflexivity].
Defined.

(* ------------------------------------------------------------------ *)
(** ** Saved routes *)

(** X12: a saved route is never shown to or deleted by another user: when
    the user owns no route with the requested id, saved_route_api answers
    404 and delete_saved_route raises Http404 with the table unchanged. *)
Theorem saved_route_other_owner routes user route_id :
  (forall r, In r routes -> sr_id r = route_id -> sr_user r <> user) ->
  saved_route_api routes user route_id = SavedRouteApiError 404 /\
  delete_saved_route routes user route_id = (Http404, routes).
Proof.
  intros H.
  assert (Hn : own_routes routes user route_id = []).
  { unfold own_routes. induction routes as [|r rs IH]; simpl; [reflexivity|].
    destruct (sr_id r =? route_id) eqn:Ei; simpl;
      [|apply IH; intros r0 Hr0; apply H; right; exact Hr0].
    destruct (sr_user r =? user) eqn:Eu; simpl;
      [|apply IH; intros r0 Hr0; apply H; right; exact Hr0].
    exfalso. apply Nat.eqb_eq in Ei, Eu. exact (H r (or_introl eq_refl) Ei Eu). }
  unfold saved_route_api, delete_saved_route. rewrite Hn. split; reflexivity.
Qed.

Lemma saved_route_other_owner_witness :
  (forall r, In r [mkSavedRouteRow 7 1 (plain_stop 1) (plain_stop 2) None] ->
             sr_id r = 7 -> sr_user r <> 2) /\
  (saved_route_api [mkSavedRouteRow 7 1 (plain_stop 1) (plain_stop 2) None] 2 7
     = SavedRouteApiError 404 /\
   delete_saved_route [mkSavedRouteRow 7 1 (plain_stop 1) (plain_stop 2) None] 2 7
     = (Http404, [mkSavedRouteRow 7 1 (plain_stop 1) (plain_stop 2) None])).
Proof.
  assert (H : forall r, In r [mkSavedRouteRow 7 1 (plain_stop 1) (plain_stop 2) None] ->
                        sr_id r = 7 -> sr_user r <> 2)
    by (intros r [<-|[]] _; simpl; lia).
  split; [exact H|]. apply (saved_route_other_owner _ 2 7 H).
Defined.

(** X13: saving a route under a fresh id and then fetching it returns the
    saved name and stop names; deleting it restores the table as it was,
    after which fetching it answers 404. *)
Theorem save_route_roundtrip routes user new_id name start_stop end_stop :
  ~ In new_id (map sr_id routes) ->
  saved_route_api (save_route routes user new_id name start_stop end_stop) user new_id =
    SavedRouteJson (mkSavedRouteData new_id name (name_en start_stop) (name_mm start_stop)
                      (name_en end_stop) (name_mm end_stop)) /\
  delete_saved_route (save_route routes user new_id name start_stop end_stop) user new_id =
    (RouteDeleted, routes) /\
  saved_route_api routes user new_id = SavedRouteApiError 404.
Proof.
  intros Hf.
  assert (Hn : forall r, In r routes -> (sr_id r =? new_id) = false).
  { intros r Hr. apply Nat.eqb_neq. intros E. apply Hf. rewrite <- E. apply in_map, Hr. }
  assert (Ho : own_routes routes user new_id = []).
  { unfold own_routes. induction routes as [|r rs IH]; simpl; [reflexivity|].
    rewrite (Hn r (or_introl eq_refl)). simpl. apply IH.
    - intros X. apply Hf. right. exact X.
    - intros; apply Hn; right; assumption. }
  assert (Hs : own_routes (save_route routes user new_id name start_stop end_stop) user new_id
               = [mkSavedRouteRow new_id user start_stop end_stop name]).
  { unfold own_routes, save_route. rewrite filter_app. fold (own_routes routes user new_id).
    rewrite Ho. simpl. rewrite !Nat.eqb_refl. reflexivity. }
  unfold saved_route_api, delete_saved_route. rewrite Hs, Ho.
  split; [reflexivity|]. split; [|reflexivity]. f_equal.
  unfold save_route. rewrite filter_app. simpl. rewrite Nat.eqb_refl. simpl.
  rewrite app_nil_r. apply filter_all_true. intros r Hr. rewrite (Hn r Hr). reflexivity.
Qed.

Lemma save_route_roundtrip_witness :
  ~ In 8 (map sr_id [mkSavedRouteRow 7 1 (plain_stop 1) (plain_stop 2) None]) /\
  (saved_route_api (save_route [mkSavedRouteRow 7 1 (plain_stop 1) (plain_stop 2) None]
                      1 8 (Some "Home"%string) (plain_stop 2) (plain_stop 3)) 1 8 =
     SavedRouteJson (mkSavedRouteData 8 (Some "Home"%string) (name_en (plain_stop 2))
                       (name_mm (plain_stop 2)) (name_en (plain_stop 3))
                       (name_mm (plain_stop 3))) /\
   delete_saved_route (save_route [mkSavedRouteRow 7 1 (plain_stop 1) (plain_stop 2) None]
                         1 8 (Some "Home"%string) (plain_stop 2) (plain_stop 3)) 1 8 =
     (RouteDeleted, [mkSavedRouteRow 7 1 (plain_stop 1) (plain_stop 2) None]) /\
   saved_route_api [mkSavedRouteRow 7 1 (plain_stop 1) (plain_stop 2) None] 1 8
     = SavedRouteApiError 404).
Proof.
  assert (H : ~ In 8 (map sr_id [mkSavedRouteRow 7 1 (plain_stop 1) (plain_stop 2) None]))
    by (simpl; lia).
  split; [exact H|]. apply (save_route_roundtrip _ 1 8 _ _ _ H).
Defined.

(* ------------------------------------------------------------------ *)
(** ** The display string of a stop *)

Lemma string_app_assoc (a b c : string) : ((a ++ b) ++ c)%string = (a ++ (b ++ c))%string.
Proof. induction a as [|x a IH]; simpl; [reflexivity | rewrite IH; reflexivity]. Qed.

Lemma list_ascii_of_string_app (a b : string) :
  list_ascii_of_string (a ++ b) = list_ascii_of_string a ++ list_ascii_of_string b.
Proof. induction a as [|x a IH]; simpl; [reflexivity | rewrite IH; reflexivity]. Qed.

Lemma lstrip_l_snoc_space l c :
  Py.isspace c = true ->
  Py.lstrip_l (l ++ [c]) = match Py.lstrip_l l with [] => [] | x => x ++ [c] end.
Proof.
  intros Hc. induction l as [|x l IH]; simpl.
  - rewrite Hc. reflexivity.
  - destruct (Py.isspace x); [exact IH | reflexivity].
Qed.

(** [(s + " ").strip() == s.strip()] *)
Lemma strip_snoc_space s : Py.strip (s ++ " ") = Py.strip s.
Proof.
  unfold Py.strip. rewrite list_ascii_of_string_app. simpl list_ascii_of_string at 2.
  rewrite lstrip_l_snoc_space by reflexivity.
  destruct (Py.lstrip_l (list_ascii_of_string s)) as [|x l]; [reflexivity|].
  rewrite rev_app_distr. reflexivity.
Qed.

Lemma split_last_none c q : Py.contains c q = false -> Py.split_last c q = None.
Proof.
  induction q as [|d q IH]; simpl; [reflexivity|].
  intros H. apply orb_false_iff in H as [Hd Hq]. rewrite IH by exact Hq.
  rewrite Hd. reflexivity.
Qed.

Lemma split_last_app c p q :
  Py.contains c q = false -> Py.split_last c (p ++ String c q) = Some (p, q).
Proof.
  intros Hq. induction p as [|d p IH]; simpl.
  - rewrite split_last_none by exact Hq. rewrite Ascii.eqb_refl. reflexivity.
  - rewrite IH. reflexivity.
Qed.

Lemma drop_last_snoc s c : Py.drop_last (s ++ String c "") = s.
Proof.
  induction s as [|d r IH]; [reflexivity|]. simpl.
  destruct (r ++ String c "")%string eqn:E; [destruct r; discriminate|].
  rewrite IH. reflexivity.
Qed.

Lemma endswith_snoc s c : Py.endswith c (s ++ String c "") = true.
Proof.
  induction s as [|d r IH]; simpl; [apply Ascii.eqb_refl|].
  destruct (r ++ String c "")%string eqn:E; [destruct r; discriminate|].
  exact IH.
Qed.

Lemma parse_bus_stop_str b r :
  road_name_en b = Some r -> r <> EmptyString -> Py.contains "(" r = false ->
  parse_stop_name_with_road (bus_stop_str b) = (Py.strip (name_en b), Some (Py.strip r)).
Proof.
  intros Hr Hne Hc. unfold bus_stop_str. rewrite Hr.
  destruct r as [|c0 r0]; [contradiction|]. simpl Py.truthy_str. cbv iota.
  set (r := String c0 r0) in *.
  assert (Heq1 : (name_en b ++ " (" ++ r ++ ")")%string =
                 ((name_en b ++ " ") ++ String "(" (r ++ String ")" ""))%string).
  { rewrite string_app_assoc. reflexivity. }
  assert (Heq2 : (name_en b ++ " (" ++ r ++ ")")%string =
                 ((name_en b ++ " (" ++ r) ++ String ")" "")%string).
  { rewrite !string_app_assoc. reflexivity. }
  unfold parse_stop_name_with_road.
  replace (Py.contains "(" (name_en b ++ " (" ++ r ++ ")")) with true.
  2:{ rewrite Heq1, contains_append. simpl. rewrite orb_true_r. reflexivity. }
  replace (Py.endswith ")" (name_en b ++ " (" ++ r ++ ")")) with true
    by (rewrite Heq2; symmetry; apply endswith_snoc).
  simpl andb. cbv iota.
  unfold Py.rsplit1. rewrite Heq1, split_last_app.
  - rewrite drop_last_snoc, strip_snoc_space. reflexivity.
  - rewrite contains_append, Hc. reflexivity.
Qed.

(** X14: the display string [BusStop.__str__] of a stop with a non-empty
    English road name free of '(' parses back, by
    parse_stop_name_with_road, to the stop's trimmed English name and
    trimmed road name. *)
Theorem bus_stop_str_parses_back b r :
  road_name_en b = Some r -> r <> EmptyString -> Py.contains "(" r = false ->
  parse_stop_name_with_road (bus_stop_str b) = (Py.strip (name_en b), Some (Py.strip r)).
Proof.
  apply parse_bus_stop_str.
Qed.

Lemma bus_stop_str_parses_back_witness :
  (road_name_en central_main_road = Some "Main Road"%string /\
   "Main Road"%string <> EmptyString /\ Py.contains "(" "Main Road" = false) /\
  parse_stop_name_with_road (bus_stop_str central_main_road) =
    (Py.strip (name_en central_main_road), Some (Py.strip "Main Road")).
Proof.
  assert (H1 : road_name_en central_main_road = Some "Main Road"%string) by reflexivity.
  assert (H2 : "Main Road"%string <> EmptyString) by discriminate.
  assert (H3 : Py.contains "(" "Main Road" = false) by reflexivity.
  split; [auto|]. apply (bus_stop_str_parses_back _ _ H1 H2 H3).
Defined.

(** X15: looking a stop up by its display string finds a stop: when the
    stop is in the table, its English name and road name are trimmed and
    the road name is non-empty and free of '(', get_bus_stop_object returns
    a stop of the table whose English name and English road, or Myanmar
    name and Myanmar road, match that name and road case-insensitively. *)
Theorem get_bus_stop_object_of_str all_stops b r :
  In b all_stops -> road_name_en b = Some r -> r <> EmptyString ->
  Py.contains "(" r = false -> Py.strip r = r -> Py.strip (name_en b) = name_en b ->
  exists s, get_bus_stop_object all_stops (bus_stop_str b) = Some s /\ In s all_stops /\
    ((iexact (name_en s) (name_en b) && iexact_opt (road_name_en s) r) ||
     (iexact (name_mm s) (name_en b) && iexact_opt (road_name_mm s) r)) = true.
Proof.
  intros Hb Hr Hne Hc Hsr Hsn. unfold get_bus_stop_object.
  rewrite (parse_bus_stop_str b r Hr Hne Hc), Hsr, Hsn.
  destruct r as [|c0 r0]; [contradiction|]. cbn zeta. simpl Py.truthy_str. cbv iota.
  set (Q := fun s => (iexact (name_en s) (name_en b) && iexact_opt (road_name_en s) (String c0 r0))
                     || (iexact (name_mm s) (name_en b)
                         && iexact_opt (road_name_mm s) (String c0 r0))).
  assert (HQ : existsb Q all_stops = true).
  { apply existsb_exists. exists b. split; [exact Hb|].
    unfold Q, iexact_opt, iexact. rewrite Hr, !String.eqb_refl. reflexivity. }
  change (fun s => (iexact (name_en s) (name_en b) && iexact_opt (road_name_en s) (String c0 r0))
                   || (iexact (name_mm s) (name_en b)
                       && iexact_opt (road_name_mm s) (String c0 r0))) with Q.
  rewrite HQ. unfold filter_first.
  destruct (find_of_existsb _ _ HQ) as (s & Hs & Hin & HQs). exists s. auto.
Qed.

Lemma get_bus_stop_object_of_str_witness :
  (In central_main_road [central_no_road; central_main_road] /\
   road_name_en central_main_road = Some "Main Road"%string /\
   "Main Road"%string <> EmptyString /\ Py.contains "(" "Main Road" = false /\
   Py.strip "Main Road" = "Main Road"%string /\
   Py.strip (name_en central_main_road) = name_en central_main_road) /\
  exists s, get_bus_stop_object [central_no_road; central_main_road]
              (bus_stop_str central_main_road) = Some s /\
    In s [central_no_road; central_main_road] /\
    ((iexact (name_en s) (name_en central_main_road)
      && iexact_opt (road_name_en s) "Main Road") ||
     (iexact (name_mm s) (name_en central_main_road)
      && iexact_opt (road_name_mm s) "Main Road")) = true.
Proof.
  assert (H1 : In central_main_road [central_no_road; central_main_road])
    by (right; left; reflexivity).
  assert (H2 : road_name_en central_main_road = Some "Main Road"%string) by reflexivity.
  assert (H3 : "Main Road"%string <> EmptyString) by discriminate.
  assert (H4 : Py.contains "(" "Main Road" = false) by reflexivity.
  assert (H5 : Py.strip "Main Road" = "Main Road"%string) by (vm_compute; reflexivity).
  assert (H6 : Py.strip (name_en central_main_road) = name_en central_main_road)
    by (vm_compute; reflexivity).
  split; [auto 7|]. apply (get_bus_stop_object_of_str _ _ _ H1 H2 H3 H4 H5 H6).
Defined.
